(** * Sleep-health dashboard: filter, aggregate and insight logic

    A shallow embedding of the data pipeline of the two dashboards
    [SleepHealth_Analysis_Main.py] and [test2.py]: the derived age-group
    column, the dropdown filters, the aggregate statistics, the insight
    ladder, the occupation analysis, the data loading fallback and the
    effect of every callback on the global frame [df].

    Conventions of the embedding.
    - A pandas frame is the list of its rows, in index order.
    - A Python float is a rational number or NaN ([float]); sums and
      quotients are taken exactly, comparisons are those of IEEE 754 (any
      comparison with NaN is false).
    - A value of a Dash dropdown is [option string]: [None] is a cleared
      dropdown, [Some "All"] the unconstrained choice. *)

From Stdlib Require Import QArith Qreduction Lqa Sorting.Sorted.
From stdpp Require Import base decidable option list strings gmap.

Local Open Scope Z_scope.

(** ** Python floats *)

Inductive float : Type :=
  | Num (q : Q)
  | NaN.

(** [a < b] on floats. *)
Definition flt (a b : float) : bool :=
  match a, b with
  | Num x, Num y => negb (Qle_bool y x)
  | _, _ => false
  end.

(** [a > b] on floats. *)
Definition fgt (a b : float) : bool := flt b a.

(** [a * b] on floats. *)
Definition fmul (a b : float) : float :=
  match a, b with
  | Num x, Num y => Num (Qred (x * y))
  | _, _ => NaN
  end.

Definition is_nan (a : float) : bool :=
  match a with NaN => true | Num _ => false end.

Definition Qsum (l : list Q) : Q := foldr Qplus 0%Q l.

(** [Series.mean()]: the sum over the count, NaN for an empty series. *)
Definition mean (l : list Q) : float :=
  match l with
  | [] => NaN
  | _ => Num (Qred (Qsum l / inject_Z (Z.of_nat (length l))))
  end.

(** The mean of an integer column. *)
Definition mean_int (l : list Z) : float := mean (inject_Z <$> l).

(** The mean of a boolean mask: the fraction of [True]. *)
Definition mean_bool (l : list bool) : float :=
  mean ((λ b : bool, if b then 1%Q else 0%Q) <$> l).

(** ** Rows and frames *)

(** The eleven columns of the CSV file. *)
Record RawRow : Type := mkRaw {
  age : Z;
  gender : string;
  occupation : string;
  sleep_duration : Q;
  quality_of_sleep : Z;
  stress_level : Z;
  physical_activity_level : Z;
  heart_rate : Z;
  daily_steps : Z;
  sleep_disorder : string;
  bmi_category : string
}.

(** A row of [df] after the [age_group] column is added; a categorical
    cell is a label or NaN ([None]). *)
Record Row : Type := mkRow {
  raw : RawRow;
  age_group : option string
}.

Global Instance Q_eq_dec : EqDecision Q.
Proof. solve_decision. Defined.
Global Instance RawRow_eq_dec : EqDecision RawRow.
Proof. solve_decision. Defined.
Global Instance Row_eq_dec : EqDecision Row.
Proof. solve_decision. Defined.

(** ** The derived age-group column *)

(** [pd.cut(x, bins, labels)] with its defaults [right=True],
    [include_lowest=False]: bin [i] is the interval (bins[i], bins[i+1]],
    and a value in no bin is NaN. *)
Fixpoint cut_bins (x lo : Z) (edges : list Z) (labels : list string)
  : option string :=
  match edges, labels with
  | hi :: edges', lab :: labels' =>
      if bool_decide (lo < x ∧ x <= hi) then Some lab
      else cut_bins x hi edges' labels'
  | _, _ => None
  end.

Definition pd_cut (x : Z) (bins : list Z) (labels : list string)
  : option string :=
  match bins with
  | [] => None
  | lo :: edges => cut_bins x lo edges labels
  end.

Definition age_bins : list Z := [0; 30; 40; 50; 60; 100].
Definition age_labels : list string :=
  ["Under 30"; "30-40"; "40-50"; "50-60"; "Over 60"]%string.

(** [df['age_group'] = pd.cut(df['age'], bins=..., labels=...)]. *)
Definition cut_age (a : Z) : option string := pd_cut a age_bins age_labels.

Definition add_age_group (rows : list RawRow) : list Row :=
  (λ r, mkRow r (cut_age (age r))) <$> rows.

(** ** The filter engine *)

(** [series == value] on a column of strings. *)
Definition cell_eq (c : string) (v : option string) : Prop := v = Some c.

(** [series == value] on a categorical column: a NaN cell equals nothing. *)
Definition cat_eq (c : option string) (v : option string) : Prop :=
  match c with
  | Some lab => v = Some lab
  | None => False
  end.

Global Instance cell_eq_dec c v : Decision (cell_eq c v).
Proof. unfold cell_eq. apply _. Defined.
Global Instance cat_eq_dec c v : Decision (cat_eq c v).
Proof. unfold cat_eq. destruct c; apply _. Defined.

Definition All : option string := Some "All"%string.

(** The filter block that opens every callback of the main dashboard:
<<
    filtered_df = df.copy()
    if gender != "All":
        filtered_df = filtered_df[filtered_df['gender'] == gender]
    ...
>> *)
Definition filter_data (gender_v age_group_v occupation_v disorder_v :
  option string) (df : list Row) : list Row :=
  let filtered_df := df in
  let filtered_df :=
    if decide (gender_v ≠ All)
    then filter (λ r, cell_eq (gender (raw r)) gender_v) filtered_df
    else filtered_df in
  let filtered_df :=
    if decide (age_group_v ≠ All)
    then filter (λ r, cat_eq (age_group r) age_group_v) filtered_df
    else filtered_df in
  let filtered_df :=
    if decide (occupation_v ≠ All)
    then filter (λ r, cell_eq (occupation (raw r)) occupation_v) filtered_df
    else filtered_df in
  let filtered_df :=
    if decide (disorder_v ≠ All)
    then filter (λ r, cell_eq (sleep_disorder (raw r)) disorder_v) filtered_df
    else filtered_df in
  filtered_df.

(** The filter of the second dashboard, on rows without derived column:
<<
    filtered_df = df if gender in (None, "All") else df[df['gender'] == gender]
>> *)
Definition update_dashboard_filter (gender_v : option string)
  (df : list RawRow) : list RawRow :=
  if decide (gender_v = None ∨ gender_v = All) then df
  else filter (λ r, cell_eq (gender r) gender_v) df.

(** A row satisfies a filter specification when every constraint other
    than "All" matches its cell. *)
Definition satisfies (gender_v age_group_v occupation_v disorder_v :
  option string) (r : Row) : Prop :=
  (gender_v ≠ All → cell_eq (gender (raw r)) gender_v) ∧
  (age_group_v ≠ All → cat_eq (age_group r) age_group_v) ∧
  (occupation_v ≠ All → cell_eq (occupation (raw r)) occupation_v) ∧
  (disorder_v ≠ All → cell_eq (sleep_disorder (raw r)) disorder_v).

Global Instance satisfies_dec g a o d r : Decision (satisfies g a o d r).
Proof. unfold satisfies. apply _. Defined.

(** ** Themes *)

Record Theme : Type := mkTheme {
  background : string;
  card : string;
  text : string;
  accent1 : string;
  accent2 : string;
  accent3 : string;
  accent4 : string;
  accent5 : string;
  muted : string
}.

Definition light_theme : Theme :=
  mkTheme "#f8fafc" "#ffffff" "#334155" "#0072B2" "#009E73" "#CC79A7"
          "#E69F00" "#56B4E9" "#94a3b8".

Definition dark_theme : Theme :=
  mkTheme "#1e293b" "#334155" "#f1f5f9" "#56B4E9" "#009E73" "#CC79A7"
          "#F0E442" "#D55E00" "#cbd5e1".

(** [dark_theme if theme == 'dark' else light_theme]. *)
Definition theme_colors (theme : option string) : Theme :=
  if decide (theme = Some "dark"%string) then dark_theme else light_theme.

(** ** The aggregate engine *)

Definition avg_sleep (fdf : list Row) : float :=
  mean ((λ r, sleep_duration (raw r)) <$> fdf).
Definition avg_quality (fdf : list Row) : float :=
  mean_int ((λ r, quality_of_sleep (raw r)) <$> fdf).
Definition avg_stress (fdf : list Row) : float :=
  mean_int ((λ r, stress_level (raw r)) <$> fdf).
Definition avg_activity (fdf : list Row) : float :=
  mean_int ((λ r, physical_activity_level (raw r)) <$> fdf).

Definition hundred : float := Num 100.

(** [(filtered_df['sleep_disorder'] != 'None').mean() * 100]. *)
Definition sleep_disorders_pct (fdf : list Row) : float :=
  fmul (mean_bool ((λ r, bool_decide (sleep_disorder (raw r) ≠ "None"%string))
                     <$> fdf)) hundred.
(** [(filtered_df['stress_level'] > 7).mean() * 100]. *)
Definition high_stress_pct (fdf : list Row) : float :=
  fmul (mean_bool ((λ r, bool_decide (7 < stress_level (raw r))) <$> fdf))
       hundred.
(** [(filtered_df['physical_activity_level'] < 50).mean() * 100]. *)
Definition low_activity_pct (fdf : list Row) : float :=
  fmul (mean_bool ((λ r, bool_decide (physical_activity_level (raw r) < 50))
                     <$> fdf)) hundred.

(** A summary card: its title, the number it shows with the digits of
    its format, the unit, the colour and the description line. *)
Record Card : Type := mkCard {
  card_title : string;
  card_value : float;
  card_digits : nat;
  card_unit : string;
  card_color : string;
  card_description : string
}.

(** The four cards built from the filtered frame. *)
Definition summary_cards (colors : Theme) (filtered_df : list Row)
  : list Card :=
  [ mkCard "Average Sleep Duration" (avg_sleep filtered_df) 1 " hrs"
           (accent1 colors) "Recommended: 7-9 hours";
    mkCard "Average Sleep Quality" (avg_quality filtered_df) 1 "/10"
           (accent2 colors) "Higher is better";
    mkCard "Average Stress Level" (avg_stress filtered_df) 1 "/10"
           (accent4 colors) "Lower is better";
    mkCard "Physical Activity" (avg_activity filtered_df) 0 "/100"
           (accent3 colors) "Aim for >60" ]%string.

Definition update_summary_cards
  (gender_v age_group_v occupation_v disorder_v theme : option string)
  (df : list Row) : list Card :=
  summary_cards (theme_colors theme)
    (filter_data gender_v age_group_v occupation_v disorder_v df).

(** ** The insight classifier *)

(** A child of the insight panel: a titled insight with its colour and
    the number interpolated in its text, or the closing block of key
    factors. *)
Inductive Child : Type :=
  | Insight (heading : string) (color : string) (value : float)
  | TopFactors (color : string).

Definition six : float := Num 6.
Definition seven : float := Num 7.
Definition five : float := Num 5.

Definition classify (colors : Theme) (fdf : list Row) : list Child :=
  let avg_sleep := avg_sleep fdf in
  let avg_quality := avg_quality fdf in
  let sleep_disorders_pct := sleep_disorders_pct fdf in
  let high_stress_pct := high_stress_pct fdf in
  let low_activity_pct := low_activity_pct fdf in
  let insights : list Child := [] in
  let insights :=
    if flt avg_sleep six then
      insights ++ [Insight "Sleep Duration Alert" (accent4 colors) avg_sleep]
    else if flt avg_sleep seven then
      insights ++ [Insight "Sleep Duration Concern" (accent5 colors) avg_sleep]
    else
      insights ++ [Insight "Healthy Sleep Duration" (accent2 colors) avg_sleep]
  in
  let insights :=
    if flt avg_quality five then
      insights ++ [Insight "Poor Sleep Quality" (accent4 colors) avg_quality]
    else if flt avg_quality seven then
      insights ++ [Insight "Moderate Sleep Quality" (accent5 colors) avg_quality]
    else
      insights ++ [Insight "Good Sleep Quality" (accent2 colors) avg_quality]
  in
  let insights :=
    if fgt high_stress_pct (Num 50) then
      insights ++ [Insight "High Stress Levels" (accent4 colors) high_stress_pct]
    else insights in
  let insights :=
    if fgt low_activity_pct (Num 60) then
      insights ++
        [Insight "Low Physical Activity" (accent5 colors) low_activity_pct]
    else insights in
  let insights :=
    if fgt sleep_disorders_pct (Num 30) then
      insights ++
        [Insight "Sleep Disorders Present" (accent4 colors) sleep_disorders_pct]
    else insights in
  insights.

(** The two ladders of [classify] on their own, for stating its shape. *)
Definition duration_tier (c : Theme) (m : float) : Child :=
  if flt m six then Insight "Sleep Duration Alert" (accent4 c) m
  else if flt m seven then Insight "Sleep Duration Concern" (accent5 c) m
  else Insight "Healthy Sleep Duration" (accent2 c) m.

Definition quality_tier (c : Theme) (m : float) : Child :=
  if flt m five then Insight "Poor Sleep Quality" (accent4 c) m
  else if flt m seven then Insight "Moderate Sleep Quality" (accent5 c) m
  else Insight "Good Sleep Quality" (accent2 c) m.

(** The children of the insight panel built from the filtered frame. *)
Definition insight_panel (colors : Theme) (filtered_df : list Row)
  : list Child :=
  classify colors filtered_df ++ [TopFactors (accent1 colors)].

Definition update_personalized_insights
  (gender_v age_group_v occupation_v disorder_v theme : option string)
  (df : list Row) : list Child :=
  insight_panel (theme_colors theme)
    (filter_data gender_v age_group_v occupation_v disorder_v df).

(** ** The occupation and age analyses *)

(** Insertion sort with a boolean order; equal keys keep their order. *)
Fixpoint insert_sorted {A} (le : A → A → bool) (x : A) (l : list A) : list A :=
  match l with
  | [] => [x]
  | y :: l' => if le x y then x :: l else y :: insert_sorted le x l'
  end.

Definition isort {A} (le : A → A → bool) (l : list A) : list A :=
  foldr (insert_sorted le) [] l.

(** [Series.unique()]: the distinct values in order of first appearance. *)
Fixpoint unique {A} `{EqDecision A} (l : list A) : list A :=
  match l with
  | [] => []
  | x :: l' => x :: filter (λ y, y ≠ x) (unique l')
  end.

(** One row of [groupby(key).agg({... : 'mean'}).reset_index()]. *)
Record GroupRow (K : Type) : Type := mkGroup {
  group_key : K;
  g_quality_of_sleep : float;
  g_stress_level : float;
  g_sleep_duration : float
}.
Arguments mkGroup {K}.
Arguments group_key {K}.
Arguments g_quality_of_sleep {K}.
Arguments g_stress_level {K}.
Arguments g_sleep_duration {K}.

Definition aggregate {K} (k : K) (rows : list Row) : GroupRow K :=
  mkGroup k (avg_quality rows) (avg_stress rows) (avg_sleep rows).

(** [groupby] with its default [sort=True]: one group per distinct key,
    the keys in ascending order. *)
Definition groupby_agg {K} `{EqDecision K} (le : K → K → bool)
  (key : Row → K) (fdf : list Row) : list (GroupRow K) :=
  (λ k, aggregate k (filter (λ r, key r = k) fdf))
    <$> isort le (unique (key <$> fdf)).

(** The order of [sort_values('quality_of_sleep', ascending=False)]:
    larger means first, NaN last. Among equal means numpy's quicksort
    fixes no order; this model keeps the order of the groups. *)
Definition quality_desc {K} (a b : GroupRow K) : bool :=
  match g_quality_of_sleep a, g_quality_of_sleep b with
  | Num x, Num y => Qle_bool y x
  | _, NaN => true
  | NaN, Num _ => false
  end.

Definition sort_values_quality_desc {K} (l : list (GroupRow K))
  : list (GroupRow K) := isort quality_desc l.

(** A bar trace and the occupation figure. *)
Record Bar : Type := mkBar {
  bar_x : list string;
  bar_y : list float;
  bar_name : string;
  bar_color : string
}.

Record Figure : Type := mkFigure {
  traces : list Bar;
  title : string;
  tickangle : option Z
}.

(** Outcome of a callback body: a value, or the [IndexError] of
    [iloc[0]] on an empty frame. *)
Inductive Result (A : Type) : Type :=
  | Ok (a : A)
  | IndexError.
Arguments Ok {A}.
Arguments IndexError {A}.

(** The second figure of [update_trend_analysis]. *)
Definition occupation_figure (colors : Theme) (df filtered_df : list Row)
  : Result Figure :=
  let occupations := unique ((λ r, occupation (raw r)) <$> filtered_df) in
  let angle := if decide (3 < length occupations)%nat then Some 45 else None in
  if decide (1 < length occupations)%nat then
    let occupation_analysis :=
      groupby_agg String.leb (λ r, occupation (raw r)) filtered_df in
    let occupation_analysis := sort_values_quality_desc occupation_analysis in
    Ok (mkFigure
          [ mkBar (group_key <$> occupation_analysis)
                  (g_quality_of_sleep <$> occupation_analysis)
                  "Sleep Quality" (accent2 colors);
            mkBar (group_key <$> occupation_analysis)
                  (g_stress_level <$> occupation_analysis)
                  "Stress Level" (accent4 colors) ]
          "Sleep Quality & Stress by Occupation" angle)
  else
    match filtered_df with
    | [] => IndexError
    | first :: _ =>
        let selected_occupation := occupation (raw first) in
        let overall_avg_quality := avg_quality df in
        let overall_avg_stress := avg_stress df in
        let selected_avg_quality := avg_quality filtered_df in
        let selected_avg_stress := avg_stress filtered_df in
        Ok (mkFigure
              [ mkBar ["Selected"; "Overall Average"]
                      [selected_avg_quality; overall_avg_quality]
                      "Sleep Quality" (accent2 colors);
                mkBar ["Selected"; "Overall Average"]
                      [selected_avg_stress; overall_avg_stress]
                      "Stress Level" (accent4 colors) ]
              ("Comparing " +:+ selected_occupation +:+ " with Average")
              angle)
    end%string.

(** [filtered_df.groupby('age').agg(...)] of the first figure. *)
Definition age_analysis (filtered_df : list Row) : list (GroupRow Z) :=
  groupby_agg Z.leb (λ r, age (raw r)) filtered_df.

(** The two figures of the trend callback built from the dataset and the
    filtered frame. *)
Definition trend_figures (colors : Theme) (df filtered_df : list Row)
  : Result (list (GroupRow Z) * Figure) :=
  let age_analysis := age_analysis filtered_df in
  match occupation_figure colors df filtered_df with
  | Ok fig2 => Ok (age_analysis, fig2)
  | IndexError => IndexError
  end.

Definition update_trend_analysis
  (gender_v age_group_v occupation_v disorder_v theme : option string)
  (df : list Row) : Result (list (GroupRow Z) * Figure) :=
  trend_figures (theme_colors theme) df
    (filter_data gender_v age_group_v occupation_v disorder_v df).

(** ** The age groups as the specification words them *)

(** The bucketing in the words of the specification: half-open bins
    [0,30), [30,40), [40,50), [50,60) and a last bin [60,100] closed on
    both sides. Used only to compare [cut_age] with it. *)
Definition half_open_age_group (a : Z) : option string :=
  if bool_decide (0 <= a ∧ a < 30) then Some "Under 30"%string
  else if bool_decide (30 <= a ∧ a < 40) then Some "30-40"%string
  else if bool_decide (40 <= a ∧ a < 50) then Some "40-50"%string
  else if bool_decide (50 <= a ∧ a < 60) then Some "50-60"%string
  else if bool_decide (60 <= a ∧ a <= 100) then Some "Over 60"%string
  else None.

(** ** The end-to-end scenario of the specification *)

(** A row of the scenario: the seven columns the scenario fixes, the
    other four taken from [base]. *)
Definition scenario_row (base : RawRow) (age : Z) (gender : string)
  (sleep_duration : Q) (quality stress activity : Z) (disorder : string)
  : RawRow :=
  mkRaw age gender (occupation base) sleep_duration quality stress activity
        (heart_rate base) (daily_steps base) disorder (bmi_category base).

Definition scenario (b1 b2 b3 : RawRow) : list Row :=
  add_age_group
    [ scenario_row b1 25 "Male" 5 3 9 20 "Insomnia";
      scenario_row b2 35 "Female" 8 8 2 80 "None";
      scenario_row b3 45 "Male" (13 # 2) 6 6 40 "None" ].

(** Values for the columns the scenario leaves open. *)
Definition nurse : RawRow :=
  mkRaw 0 "" "Nurse" 0 0 0 0 70 8000 "" "Normal".
Definition teacher : RawRow :=
  mkRaw 0 "" "Teacher" 0 0 0 0 64 11000 "" "Overweight".


(** ** Frames as shared objects *)

(** The callbacks again, with frames as objects in a store: [df] is a
    location, [copy] and boolean indexing allocate a new frame, and an
    item assignment writes the frame it is applied to. A computation is
    [None] when it reads or writes a location that holds no frame. *)
Module Store.

Definition M (R A : Type) : Type :=
  gmap nat (list R) → option (A * gmap nat (list R)).

Global Instance M_ret {R} : MRet (M R) := λ A a h, Some (a, h).
Global Instance M_bind {R} : MBind (M R) := λ A B f m h,
  match m h with
  | Some (a, h') => f a h'
  | None => None
  end.

Section heap.
Context {R : Type}.

(** A new frame object. *)
Definition alloc (rows : list R) : M R nat := λ h,
  let l := fresh (dom h) in Some (l, <[l := rows]> h).

Definition read (l : nat) : M R (list R) := λ h,
  match h !! l with
  | Some rows => Some (rows, h)
  | None => None
  end.

(** [frame.copy()]. *)
Definition copy (l : nat) : M R nat := rows ← read l; alloc rows.

(** [frame[mask]]: a new frame with the rows where the mask holds. *)
Definition getitem_mask (l : nat) (P : R → Prop) `{!∀ r, Decision (P r)}
  : M R nat :=
  rows ← read l; alloc (filter P rows).

(** [frame[column] = values]: the frame at [l] is updated in place. *)
Definition setitem (l : nat) (f : R → R) : M R unit := λ h,
  match h !! l with
  | Some rows => Some ((), <[l := f <$> rows]> h)
  | None => None
  end.
End heap.

(** What a plotting call is given: the kind of chart, the columns on its
    axes and the rows of the frame. *)
Record Chart (R : Type) : Type := mkChart {
  chart_kind : string;
  chart_x : string;
  chart_y : string;
  chart_rows : list R
}.
Arguments mkChart {R}.
Arguments chart_rows {R}.

(** The filter block of the main dashboard. *)
Definition filter_block (df : nat)
  (gender_v age_group_v occupation_v disorder_v : option string)
  : M Row nat :=
  filtered_df ← copy df;
  filtered_df ←
    (if decide (gender_v ≠ All)
     then getitem_mask filtered_df (λ r, cell_eq (gender (raw r)) gender_v)
     else mret filtered_df);
  filtered_df ←
    (if decide (age_group_v ≠ All)
     then getitem_mask filtered_df (λ r, cat_eq (age_group r) age_group_v)
     else mret filtered_df);
  filtered_df ←
    (if decide (occupation_v ≠ All)
     then getitem_mask filtered_df
            (λ r, cell_eq (occupation (raw r)) occupation_v)
     else mret filtered_df);
  filtered_df ←
    (if decide (disorder_v ≠ All)
     then getitem_mask filtered_df
            (λ r, cell_eq (sleep_disorder (raw r)) disorder_v)
     else mret filtered_df);
  mret filtered_df.

(** [replace({'Normal': 'Underweight', 'Normal Weight': 'Normal'})]. *)
Definition replace_bmi (c : string) : string :=
  if decide (c = "Normal"%string) then "Underweight"%string
  else if decide (c = "Normal Weight"%string) then "Normal"%string
  else c.

Definition set_bmi_category (r : Row) : Row :=
  let x := raw r in
  mkRow (mkRaw (age x) (gender x) (occupation x) (sleep_duration x)
               (quality_of_sleep x) (stress_level x)
               (physical_activity_level x) (heart_rate x) (daily_steps x)
               (sleep_disorder x) (replace_bmi (bmi_category x)))
        (age_group r).

Inductive Output : Type :=
  | OutTheme (update : option (Theme * string * string))
  | OutCards (cards : list Card)
  | OutCharts (charts : list (Chart Row))
  | OutTrend (figures : Result (list (GroupRow Z) * Figure))
  | OutInsights (children : list Child).

(** [toggle_theme]: the theme of the new style, the stored theme name and
    the button text (without its icon), or no update before the first
    click. *)
Definition toggle_theme (n_clicks : option nat) (current : option string)
  : option (Theme * string * string) :=
  match n_clicks with
  | None => None
  | Some _ =>
      if decide (current = Some "light"%string)
      then Some (dark_theme, "dark", "Light Mode")%string
      else Some (light_theme, "light", "Dark Mode")%string
  end.

Definition update_summary_cards (df : nat)
  (gender_v age_group_v occupation_v disorder_v theme : option string)
  : M Row Output :=
  filtered_df ← filter_block df gender_v age_group_v occupation_v disorder_v;
  rows ← read filtered_df;
  mret (OutCards (summary_cards (theme_colors theme) rows)).

Definition update_sleep_patterns (df : nat)
  (gender_v age_group_v occupation_v disorder_v theme : option string)
  : M Row Output :=
  filtered_df ← filter_block df gender_v age_group_v occupation_v disorder_v;
  rows ← read filtered_df;
  mret (OutCharts
          [ mkChart "histogram" "sleep_duration" "" rows;
            mkChart "scatter" "sleep_duration" "quality_of_sleep" rows ]).

Definition update_factor_content (df : nat)
  (tab gender_v age_group_v occupation_v disorder_v theme : option string)
  : M Row Output :=
  filtered_df ← filter_block df gender_v age_group_v occupation_v disorder_v;
  if decide (tab = Some "stress"%string) then
    rows ← read filtered_df;
    mret (OutCharts [mkChart "scatter" "stress_level" "sleep_duration" rows])
  else if decide (tab = Some "activity"%string) then
    rows ← read filtered_df;
    mret (OutCharts [mkChart "scatter" "daily_steps" "sleep_duration" rows])
  else
    _ ← setitem filtered_df set_bmi_category;
    rows ← read filtered_df;
    mret (OutCharts
            [ mkChart "box" "bmi_category" "sleep_duration" rows;
              mkChart "scatter" "bmi_category" "quality_of_sleep" rows ]).

Definition update_trend_analysis (df : nat)
  (gender_v age_group_v occupation_v disorder_v theme : option string)
  : M Row Output :=
  filtered_df ← filter_block df gender_v age_group_v occupation_v disorder_v;
  rows ← read filtered_df;
  all_rows ← read df;
  mret (OutTrend (trend_figures (theme_colors theme) all_rows rows)).

Definition update_personalized_insights (df : nat)
  (gender_v age_group_v occupation_v disorder_v theme : option string)
  : M Row Output :=
  filtered_df ← filter_block df gender_v age_group_v occupation_v disorder_v;
  rows ← read filtered_df;
  mret (OutInsights (insight_panel (theme_colors theme) rows)).

(** A user interaction of the main dashboard fires one callback with the
    current values of its inputs. *)
Inductive Interaction : Type :=
  | ToggleTheme (n_clicks : option nat) (current : option string)
  | SummaryCards (g a o d theme : option string)
  | SleepPatterns (g a o d theme : option string)
  | FactorContent (tab g a o d theme : option string)
  | TrendAnalysis (g a o d theme : option string)
  | PersonalizedInsights (g a o d theme : option string).

Definition run_callback (df : nat) (i : Interaction) : M Row Output :=
  match i with
  | ToggleTheme n_clicks current => mret (OutTheme (toggle_theme n_clicks current))
  | SummaryCards g a o d theme => update_summary_cards df g a o d theme
  | SleepPatterns g a o d theme => update_sleep_patterns df g a o d theme
  | FactorContent tab g a o d theme =>
      update_factor_content df tab g a o d theme
  | TrendAnalysis g a o d theme => update_trend_analysis df g a o d theme
  | PersonalizedInsights g a o d theme =>
      update_personalized_insights df g a o d theme
  end.

(** The callbacks fired by a sequence of interactions, in order. *)
Fixpoint run_session (df : nat) (session : list Interaction)
  : M Row (list Output) :=
  match session with
  | [] => mret []
  | i :: session' =>
      out ← run_callback df i;
      outs ← run_session df session';
      mret (out :: outs)
  end.

(** The one callback of the second dashboard: the filtered frame is [df]
    itself for "All" or a cleared dropdown, and six charts read it. *)
Definition update_dashboard (df : nat) (gender_v : option string)
  : M RawRow (list (Chart RawRow)) :=
  filtered_df ←
    (if decide (gender_v = None ∨ gender_v = All) then mret df
     else getitem_mask df (λ r, cell_eq (gender r) gender_v));
  rows ← read filtered_df;
  mret [ mkChart "histogram" "sleep_duration" "" rows;
         mkChart "scatter" "stress_level" "sleep_duration" rows;
         mkChart "scatter" "daily_steps" "sleep_duration" rows;
         mkChart "box" "gender" "sleep_duration" rows;
         mkChart "box" "bmi_category" "sleep_duration" rows;
         mkChart "box" "sleep_disorder" "sleep_duration" rows ].

End Store.

(** ** Loading the dataset *)

(** The data preparation at the top of both dashboards. A frame is here
    the list of its named columns; the world is the file system and the
    state of numpy's global random generator. The generator and the CSV
    codec of pandas are parameters: a generator state, the state
    [np.random.seed] installs, one draw of each distribution used, and
    the parser and printer of CSV files. *)
Module Loader.

Inductive Column : Type :=
  | IntCol (values : list Z)
  | FloatCol (values : list Q)
  | StrCol (values : list string).

Definition col_length (c : Column) : nat :=
  match c with
  | IntCol l => length l
  | FloatCol l => length l
  | StrCol l => length l
  end.

(** [frame.columns]. *)
Definition columns (frame : list (string * Column)) : list string :=
  fst <$> frame.

(** A computation that draws from the generator. *)
Definition Gen (S A : Type) : Type := S → A * S.

Global Instance Gen_ret {S} : MRet (Gen S) := λ A a s, (a, s).
Global Instance Gen_bind {S} : MBind (Gen S) := λ A B f m s,
  let '(a, s') := m s in f a s'.

(** [n] successive draws. *)
Fixpoint draws {S A} (draw : Gen S A) (n : nat) : Gen S (list A) :=
  match n with
  | O => mret []
  | S n' => x ← draw; xs ← draws draw n'; mret (x :: xs)
  end.

(** [np.clip(x, lo, hi)]. *)
Definition clip (lo hi x : Q) : Q :=
  let x := if Qle_bool lo x then x else lo in
  if Qle_bool x hi then x else hi.

Definition clip_int (lo hi x : Z) : Z := Z.min (Z.max x lo) hi.

(** [astype(int)]: truncation toward zero. *)
Definition astype_int (x : Q) : Z := Z.quot (Qnum x) (Z.pos (Qden x)).

(** [df.loc[mask, col] *= k] and [df.loc[mask, col] += k] on a column. *)
Definition scale_where (mask : list bool) (k : Q) (col : list Q) : list Q :=
  zip_with (λ (b : bool) x, if b then Qred (x * k) else x) mask col.
Definition add_where (mask : list bool) (k : Z) (col : list Z) : list Z :=
  zip_with (λ (b : bool) x, if b then x + k else x) mask col.

Record World (rng csv : Type) : Type := mkWorld {
  fs : gmap string csv;
  np_state : rng
}.
Arguments mkWorld {rng csv}.
Arguments fs {rng csv}.
Arguments np_state {rng csv}.

(** The outcome of the data preparation: the frame and the world after
    it, or the parse error of [read_csv], which aborts the start. *)
Inductive LoadResult (rng csv : Type) : Type :=
  | LoadOk (df : list (string * Column)) (w : World rng csv)
  | ParseFailure.
Arguments LoadOk {rng csv}.
Arguments ParseFailure {rng csv}.

Definition primary_path : string := "sleep_health_cleaned_for_dashboard.csv".
Definition fallback_path : string :=
  "data/sleep_health_cleaned_for_dashboard.csv".

Section loader.
Context {rng csv : Type}.
Variable seed : Z → rng.
Variable randint1 : Z → Z → Gen rng Z.
Variable choice1 : list string → option (list Q) → Gen rng string.
Variable normal1 : Q → Q → Gen rng Q.
Variable read_csv : csv → option (list (string * Column)).
Variable to_csv : list (string * Column) → csv.

(** [np.random.seed(n)] replaces the generator state. *)
Definition np_seed (n : Z) : Gen rng unit := λ _, ((), seed n).

Definition randint (lo hi : Z) (n : nat) : Gen rng (list Z) :=
  draws (randint1 lo hi) n.
Definition choice (options : list string) (p : option (list Q)) (n : nat)
  : Gen rng (list string) :=
  draws (choice1 options p) n.
Definition normal (mu sigma : Q) (n : nat) : Gen rng (list Q) :=
  draws (normal1 mu sigma) n.

(** The sample frame of the main dashboard. *)
Definition synthetic_main : Gen rng (list (string * Column)) :=
  _ ← np_seed 42;
  let n_samples := 200%nat in
  let occupations :=
    ["Software Engineer"; "Doctor"; "Nurse"; "Teacher"; "Accountant";
     "Lawyer"; "Sales Representative"]%string in
  age ← randint 18 70 n_samples;
  gender ← choice ["Male"; "Female"]%string None n_samples;
  occupation ← choice occupations None n_samples;
  sleep_duration ← normal 7 (3 # 2) n_samples;
  quality_of_sleep ← randint 1 11 n_samples;
  stress_level ← randint 1 11 n_samples;
  physical_activity_level ← randint 10 100 n_samples;
  heart_rate ← normal 70 8 n_samples;
  daily_steps ← randint 2000 15000 n_samples;
  sleep_disorder ←
    choice ["None"; "Insomnia"; "Sleep Apnea"]%string
           (Some [7 # 10; 1 # 5; 1 # 10]%Q) n_samples;
  bmi_category ←
    choice ["Underweight"; "Normal"; "Overweight"; "Obese"]%string
           (Some [1 # 5; 1 # 2; 1 # 5; 1 # 10]%Q) n_samples;
  mret [ ("age", IntCol age);
         ("gender", StrCol gender);
         ("occupation", StrCol occupation);
         ("sleep_duration", FloatCol (clip 4 10 <$> sleep_duration));
         ("quality_of_sleep", IntCol quality_of_sleep);
         ("stress_level", IntCol stress_level);
         ("physical_activity_level", IntCol physical_activity_level);
         ("heart_rate", IntCol (astype_int <$> (clip 50 95 <$> heart_rate)));
         ("daily_steps", IntCol daily_steps);
         ("sleep_disorder", StrCol sleep_disorder);
         ("bmi_category", StrCol bmi_category) ]%string.

(** Lines 16 to 44 of the main dashboard. *)
Definition load_main (w : World rng csv) : LoadResult rng csv :=
  let data_path := primary_path in
  let data_path :=
    if decide (fs w !! data_path = None) then fallback_path else data_path in
  match fs w !! data_path with
  | Some file =>
      match read_csv file with
      | Some df => LoadOk df w
      | None => ParseFailure
      end
  | None =>
      let '(df, s) := synthetic_main (np_state w) in
      LoadOk df (mkWorld (fs w) s)
  end.

(** The sample frame of the second dashboard. *)
Definition synthetic_test2 : Gen rng (list (string * Column)) :=
  _ ← np_seed 42;
  let n_samples := 500%nat in
  let genders := ["Male"; "Female"; "Non-binary"]%string in
  let bmi_categories :=
    ["Underweight"; "Normal"; "Overweight"; "Obese"]%string in
  let sleep_disorders := ["None"; "Insomnia"; "Sleep Apnea"]%string in
  gender ← choice genders None n_samples;
  age ← randint 18 80 n_samples;
  sleep_duration ← normal 7 (3 # 2) n_samples;
  let sleep_duration := clip 3 12 <$> sleep_duration in
  quality_of_sleep ← randint 1 11 n_samples;
  physical_activity_level ← randint 10 100 n_samples;
  stress_level ← randint 1 11 n_samples;
  bmi_category ← choice bmi_categories None n_samples;
  heart_rate ← randint 60 100 n_samples;
  daily_steps ← randint 2000 20000 n_samples;
  sleep_disorder ← choice sleep_disorders None n_samples;
  let sleep_duration :=
    scale_where ((λ s, bool_decide (7 < s)) <$> stress_level) (4 # 5)
                sleep_duration in
  let sleep_duration :=
    scale_where ((λ x, bool_decide (70 < x)) <$> physical_activity_level)
                (11 # 10) sleep_duration in
  let sleep_duration :=
    scale_where ((λ s, bool_decide (s = "Insomnia"%string)) <$> sleep_disorder)
                (7 # 10) sleep_duration in
  let sleep_duration :=
    scale_where
      ((λ s, bool_decide (s = "Sleep Apnea"%string)) <$> sleep_disorder)
      (4 # 5) sleep_duration in
  let quality_of_sleep :=
    add_where ((λ x, bool_decide (12000 < x)) <$> daily_steps) 1
              quality_of_sleep in
  let sleep_duration := clip 3 12 <$> sleep_duration in
  let quality_of_sleep := clip_int 1 10 <$> quality_of_sleep in
  mret [ ("gender", StrCol gender);
         ("age", IntCol age);
         ("sleep_duration", FloatCol sleep_duration);
         ("quality_of_sleep", IntCol quality_of_sleep);
         ("physical_activity_level", IntCol physical_activity_level);
         ("stress_level", IntCol stress_level);
         ("bmi_category", StrCol bmi_category);
         ("heart_rate", IntCol heart_rate);
         ("daily_steps", IntCol daily_steps);
         ("sleep_disorder", StrCol sleep_disorder) ]%string.

(** Lines 12 to 50 of the second dashboard. *)
Definition load_test2 (w : World rng csv) : LoadResult rng csv :=
  match fs w !! primary_path with
  | Some file =>
      match read_csv file with
      | Some df => LoadOk df w
      | None => ParseFailure
      end
  | None =>
      let '(df, s) := synthetic_test2 (np_state w) in
      LoadOk df (mkWorld (<[primary_path := to_csv df]> (fs w)) s)
  end.

End loader.

(** A generator to run the loaders with: the state counts the draws. *)
Definition counter_seed (n : Z) : nat := O.
Definition counter_randint1 (lo hi : Z) : Gen nat Z :=
  λ s, (lo + Z.of_nat s mod (hi - lo), S s).
Definition counter_choice1 (options : list string) (p : option (list Q))
  : Gen nat string :=
  λ s, (default ""%string (options !! (s mod length options)%nat), S s).
Definition counter_normal1 (mu sigma : Q) : Gen nat Q :=
  λ s, (Qred (mu + sigma * (inject_Z (Z.of_nat s mod 5) - 2)), S s).

Definition counter_load_main
  : World nat (list (string * Column)) → LoadResult nat _ :=
  load_main counter_seed counter_randint1 counter_choice1 counter_normal1 Some.
Definition counter_load_test2
  : World nat (list (string * Column)) → LoadResult nat _ :=
  load_test2 counter_seed counter_randint1 counter_choice1 counter_normal1
             Some id.

End Loader.

(** ** The filter section *)

(** An option of a dropdown. The label and the value of a data option
    are the cell itself, which for a categorical column may be NaN. *)
Record DropdownOption : Type := mkOption {
  opt_label : option string;
  opt_value : option string
}.

(** [[{"label": all_label, "value": "All"}] +
     [{"label": g, "value": g} for g in column.unique()]]. *)
Definition dropdown_options (all_label : string) (cells : list (option string))
  : list DropdownOption :=
  mkOption (Some all_label) All :: ((λ g, mkOption g g) <$> unique cells).

(** The options of the four dropdowns of [create_filter_section]. *)
Record FilterSection : Type := mkFilterSection {
  gender_options : list DropdownOption;
  age_options : list DropdownOption;
  occupation_options : list DropdownOption;
  disorder_options : list DropdownOption
}.

Definition create_filter_section (df : list Row) : FilterSection :=
  mkFilterSection
    (dropdown_options "All Genders" ((λ r, Some (gender (raw r))) <$> df))
    (dropdown_options "All Ages" (age_group <$> df))
    (dropdown_options "All Occupations"
       ((λ r, Some (occupation (raw r))) <$> df))
    (dropdown_options "All" ((λ r, Some (sleep_disorder (raw r))) <$> df)).

(** The gender dropdown of the second dashboard. *)
Definition gender_dropdown (df : list RawRow) : list DropdownOption :=
  dropdown_options "All Genders" ((λ r, Some (gender r)) <$> df).

(** ** Columns of a loaded frame *)

(** [frame[name]]: the column of that name, [None] for a missing key. *)
Definition frame_getitem (frame : list (string * Loader.Column))
  (name : string) : option Loader.Column :=
  (λ found, found.2.2) <$> list_find (λ c, c.1 = name) frame.

(** ** The insight ladder on the computed statistics *)

(** The five statistics of lines 883 to 887 as the callback holds them
    once computed. pandas computes them in float64; the values are
    floats, whatever rounding produced them. *)
Record Stats : Type := mkStats {
  st_avg_sleep : float;
  st_avg_quality : float;
  st_sleep_disorders_pct : float;
  st_high_stress_pct : float;
  st_low_activity_pct : float
}.

(** Lines 890 to 952: the insights generated from the statistics. *)
Definition classify_stats (colors : Theme) (st : Stats) : list Child :=
  let avg_sleep := st_avg_sleep st in
  let avg_quality := st_avg_quality st in
  let sleep_disorders_pct := st_sleep_disorders_pct st in
  let high_stress_pct := st_high_stress_pct st in
  let low_activity_pct := st_low_activity_pct st in
  let insights : list Child := [] in
  let insights :=
    if flt avg_sleep six then
      insights ++ [Insight "Sleep Duration Alert" (accent4 colors) avg_sleep]
    else if flt avg_sleep seven then
      insights ++ [Insight "Sleep Duration Concern" (accent5 colors) avg_sleep]
    else
      insights ++ [Insight "Healthy Sleep Duration" (accent2 colors) avg_sleep]
  in
  let insights :=
    if flt avg_quality five then
      insights ++ [Insight "Poor Sleep Quality" (accent4 colors) avg_quality]
    else if flt avg_quality seven then
      insights ++ [Insight "Moderate Sleep Quality" (accent5 colors) avg_quality]
    else
      insights ++ [Insight "Good Sleep Quality" (accent2 colors) avg_quality]
  in
  let insights :=
    if fgt high_stress_pct (Num 50) then
      insights ++ [Insight "High Stress Levels" (accent4 colors) high_stress_pct]
    else insights in
  let insights :=
    if fgt low_activity_pct (Num 60) then
      insights ++
        [Insight "Low Physical Activity" (accent5 colors) low_activity_pct]
    else insights in
  let insights :=
    if fgt sleep_disorders_pct (Num 30) then
      insights ++
        [Insight "Sleep Disorders Present" (accent4 colors) sleep_disorders_pct]
    else insights in
  insights.

(** The insight callback with the aggregate step as a parameter:
    [aggregate] stands for the computation of the five statistics from
    the filtered frame, in whatever arithmetic. *)
Definition personalized_insights_with (aggregate : list Row → Stats)
  (gender_v age_group_v occupation_v disorder_v theme : option string)
  (df : list Row) : list Child :=
  let colors := theme_colors theme in
  let filtered_df :=
    filter_data gender_v age_group_v occupation_v disorder_v df in
  classify_stats colors (aggregate filtered_df) ++ [TopFactors (accent1 colors)].

(** The statistics in exact arithmetic, as the rest of this file takes
    them. *)
Definition exact_stats (fdf : list Row) : Stats :=
  mkStats (avg_sleep fdf) (avg_quality fdf) (sleep_disorders_pct fdf)
          (high_stress_pct fdf) (low_activity_pct fdf).

(** * Properties *)

(** ** Filter engine *)

(** A conditional filter step is a filter by the guarded constraint. *)
Lemma guarded_filter {A} (v : option string) (P : A → Prop)
    `{!∀ x, Decision (P x)} (l : list A) :
  (if decide (v ≠ All) then filter P l else l) = filter (λ x, v ≠ All → P x) l.
Proof.
  destruct (decide (v ≠ All)) as [Hv|Hv].
  - apply list_filter_iff. naive_solver.
  - induction l as [|x l IH]; [done|].
    rewrite filter_cons_True by (intros ?; contradiction). by rewrite <- IH.
Qed.

Lemma filter_data_reference g a o d (df : list Row) :
  filter_data g a o d df = filter (satisfies g a o d) df.
Proof.
  unfold filter_data. cbv zeta.
  rewrite !guarded_filter, !list_filter_filter.
  apply list_filter_iff. unfold satisfies. intros r. tauto.
Qed.

Lemma filter_data_sublist g a o d (df : list Row) :
  filter_data g a o d df `sublist_of` df.
Proof. rewrite filter_data_reference. apply sublist_filter. Qed.

(** C1. For every filter specification the filter engine returns exactly
    the rows of the dataset that satisfy every constraint other than
    "All" (string equality, hence case-sensitive; the constraints joined
    by conjunction), which is what a brute-force reference filter
    returns; with "All" in every field it returns the whole dataset. The
    gender-only filter of the second dashboard obeys the same rule. *)
Theorem filter_engine_iff (g a o d : option string) (df : list Row) :
  filter_data g a o d df = filter (satisfies g a o d) df ∧
  (∀ r, r ∈ filter_data g a o d df ↔ r ∈ df ∧ satisfies g a o d r) ∧
  filter_data All All All All df = df ∧
  (∀ (rows : list RawRow) r,
     r ∈ update_dashboard_filter g rows ↔
     r ∈ rows ∧ (g ≠ All → g ≠ None → cell_eq (gender r) g)) ∧
  (∀ rows : list RawRow, update_dashboard_filter All rows = rows).
Proof.
  split; [apply filter_data_reference|].
  split.
  { intros r. rewrite filter_data_reference, list_elem_of_filter. tauto. }
  split; [done|].
  split; [|done].
  intros rows r. unfold update_dashboard_filter.
  destruct (decide (g = None ∨ g = All)) as [Hg|Hg].
  - split; [|tauto]. intros Hr. split; [done|]. intros ??. tauto.
  - rewrite list_elem_of_filter. split.
    + intros [??]; split; auto.
    + intros [? Hc]. split; [|done]. apply Hc; intros ->; apply Hg; auto.
Qed.

(** Equality of categories distinguishes case. *)
Example filter_case_sensitive :
  filter_data (Some "male"%string) All All All (scenario nurse teacher nurse)
    = [] ∧
  length (filter_data (Some "Male"%string) All All All
            (scenario nurse teacher nurse)) = 2%nat.
Proof. split; reflexivity. Qed.

(** ** Order preservation *)

(** A sublist selects strictly increasing positions of the list. *)
Lemma sublist_positions {A} (l1 l2 : list A) :
  l1 `sublist_of` l2 →
  ∃ idx : list nat,
    StronglySorted lt idx ∧ Forall2 (λ i x, l2 !! i = Some x) idx l1.
Proof.
  induction 1 as [|x l1 l2 _ (idx & Hs & Hf)|x l1 l2 _ (idx & Hs & Hf)].
  - exists []. split; constructor.
  - exists (0%nat :: (S <$> idx)). split.
    + constructor.
      * clear Hf. induction Hs as [|i idx _ IH Hi]; csimpl; constructor; auto.
        rewrite Forall_fmap. eapply Forall_impl; [exact Hi|]. simpl. lia.
      * rewrite Forall_fmap. apply Forall_true. simpl. lia.
    + constructor; [done|]. rewrite Forall2_fmap_l. exact Hf.
  - exists (S <$> idx). split.
    + clear Hf. induction Hs as [|i idx _ IH Hi]; csimpl; constructor; auto.
      rewrite Forall_fmap. eapply Forall_impl; [exact Hi|]. simpl. lia.
    + rewrite Forall2_fmap_l. exact Hf.
Qed.

(** C10. For every filter specification the filtered frame is a
    subsequence of the dataset: its rows are the rows at strictly
    increasing positions of the dataset, so surviving rows keep their
    relative order and no row of the dataset is taken twice (a dataset
    without repeated rows gives a result without repeated rows). The
    same holds for the gender filter of the second dashboard. *)
Theorem filter_preserves_order (g a o d : option string) (df : list Row) :
  filter_data g a o d df `sublist_of` df ∧
  (∃ idx : list nat,
     StronglySorted lt idx ∧
     Forall2 (λ i r, df !! i = Some r) idx (filter_data g a o d df)) ∧
  (NoDup df → NoDup (filter_data g a o d df)) ∧
  (∀ rows : list RawRow, update_dashboard_filter g rows `sublist_of` rows).
Proof.
  pose proof (filter_data_sublist g a o d df) as Hsub.
  split; [done|]. split; [by apply sublist_positions|].
  split; [intros Hd; by eapply sublist_NoDup|].
  intros rows. unfold update_dashboard_filter.
  destruct (decide _); [done|apply sublist_filter].
Qed.

(** ** Age groups *)

Lemma cut_age_unfold (a : Z) :
  cut_age a =
  if bool_decide (0 < a ∧ a <= 30) then Some "Under 30"%string
  else if bool_decide (30 < a ∧ a <= 40) then Some "30-40"%string
  else if bool_decide (40 < a ∧ a <= 50) then Some "40-50"%string
  else if bool_decide (50 < a ∧ a <= 60) then Some "50-60"%string
  else if bool_decide (60 < a ∧ a <= 100) then Some "Over 60"%string
  else None.
Proof. reflexivity. Qed.

(** C3, as stated, fails: the boundary age 30 is put in "Under 30", not
    in the bin that starts at 30, and the ages 0 and 101 get no label. *)
Lemma cut_age_boundary_counterexample :
  cut_age 30 = Some "Under 30"%string ∧
  half_open_age_group 30 = Some "30-40"%string ∧
  cut_age 30 ≠ half_open_age_group 30 ∧
  cut_age 0 = None ∧ cut_age 101 = None ∧
  ¬ (∀ a, 0 <= a <= 130 →
       is_Some (cut_age a) ∧ cut_age a = half_open_age_group a).
Proof.
  repeat split; try done.
  intros H. destruct (H 30) as [_ Heq]; [lia|]. discriminate Heq.
Qed.

(** C3 (amended). The bucketing is a function, so no age has two labels;
    its bins are open on the left and closed on the right: (0,30],
    (30,40], (40,50], (50,60], (60,100]. Every age from 1 to 100 has
    exactly one of the five labels, each boundary age 30, 40, 50, 60
    belongs to the bin that ends at it, and an age below 1 or above 100
    has no label. *)
Theorem cut_age_bins (a : Z) :
  (cut_age a = Some "Under 30"%string ↔ 0 < a <= 30) ∧
  (cut_age a = Some "30-40"%string ↔ 30 < a <= 40) ∧
  (cut_age a = Some "40-50"%string ↔ 40 < a <= 50) ∧
  (cut_age a = Some "50-60"%string ↔ 50 < a <= 60) ∧
  (cut_age a = Some "Over 60"%string ↔ 60 < a <= 100) ∧
  (cut_age a = None ↔ a <= 0 ∨ 100 < a) ∧
  (is_Some (cut_age a) ↔ 1 <= a <= 100) ∧
  (∀ lab, cut_age a = Some lab → lab ∈ age_labels) ∧
  cut_age 30 = Some "Under 30"%string ∧ cut_age 40 = Some "30-40"%string ∧
  cut_age 50 = Some "40-50"%string ∧ cut_age 60 = Some "50-60"%string.
Proof.
  rewrite cut_age_unfold. unfold age_labels.
  repeat case_bool_decide;
    repeat match goal with |- _ ∧ _ => split end;
    try reflexivity;
    try (intros lab [= <-]; repeat constructor);
    try (intros lab [=]);
    try (split; [intros [=]; lia | intros; lia]);
    try (split; [intros _; lia | reflexivity]);
    try (split; [intros [? [=]] | intros; lia]);
    try (split; [intros _; lia | intros _; eexists; reflexivity]).
Qed.

(** ** Floats and means *)

Lemma flt_Num (x y : Q) : flt (Num x) (Num y) = true ↔ (x < y)%Q.
Proof.
  simpl. rewrite negb_true_iff, <- not_true_iff_false, Qle_bool_iff.
  split; [apply Qnot_le_lt | apply Qlt_not_le].
Qed.

Lemma flt_NaN_l (b : float) : flt NaN b = false.
Proof. done. Qed.

Lemma flt_NaN_r (a : float) : flt a NaN = false.
Proof. by destruct a. Qed.

Lemma mean_nil : mean [] = NaN.
Proof. done. Qed.

Lemma mean_cons (x : Q) (l : list Q) :
  mean (x :: l) =
  Num (Qred (Qsum (x :: l) / inject_Z (Z.of_nat (length (x :: l))))).
Proof. done. Qed.

Lemma mean_nonempty (l : list Q) :
  l ≠ [] → mean l = Num (Qred (Qsum l / inject_Z (Z.of_nat (length l)))).
Proof. by destruct l. Qed.

Lemma mean_is_nan (l : list Q) : mean l = NaN ↔ l = [].
Proof. destruct l; split; intros; done. Qed.

(** The sum of a mask counts its true entries. *)
Lemma Qsum_indicator {A} (P : A → Prop) `{!∀ x, Decision (P x)} (l : list A) :
  (Qsum ((λ b : bool, if b then 1 else 0) <$> ((λ x, bool_decide (P x)) <$> l))
   == inject_Z (Z.of_nat (length (filter P l))))%Q.
Proof.
  induction l as [|x l IH]; [reflexivity|].
  rewrite filter_cons. csimpl. unfold Qsum in IH |- *. simpl. rewrite IH.
  destruct (decide (P x)) as [HP|HP].
  - rewrite bool_decide_eq_true_2 by done. simpl length.
    rewrite Nat2Z.inj_succ, <- Z.add_1_l, inject_Z_plus. reflexivity.
  - rewrite bool_decide_eq_false_2 by done. ring.
Qed.

(** A percentage of rows exceeds an integer threshold exactly when the
    count of rows does, cross-multiplied; never for an empty frame. *)
Lemma pct_gt_iff (P : Row → Prop) `{!∀ r, Decision (P r)}
    (fdf : list Row) (t : Z) :
  fgt (fmul (mean_bool ((λ r, bool_decide (P r)) <$> fdf)) hundred)
      (Num (inject_Z t)) = true ↔
  t * Z.of_nat (length fdf) < 100 * Z.of_nat (length (filter P fdf)).
Proof.
  destruct (decide (fdf = [])) as [->|Hne].
  - simpl. split; [done|lia].
  - unfold fgt, mean_bool.
    set (m := (λ b : bool, if b then 1%Q else 0%Q) <$>
                ((λ r, bool_decide (P r)) <$> fdf)).
    assert (length m = length fdf) as Hlen
      by (subst m; by rewrite !length_fmap).
    assert (m ≠ []) as Hm.
    { intros H0. rewrite H0 in Hlen. destruct fdf; done. }
    rewrite (mean_nonempty m Hm), Hlen. unfold hundred, fmul.
    rewrite flt_Num, !Qred_correct.
    subst m. rewrite (Qsum_indicator P fdf).
    set (n := Z.of_nat (length fdf)).
    set (c := Z.of_nat (length (filter P fdf))).
    assert (0 < n) as Hn by (subst n; destruct fdf; [done|simpl; lia]).
    assert (inject_Z 0 < inject_Z n)%Q as HnQ by (by rewrite <- Zlt_Qlt).
    rewrite <- (Qmult_lt_r _ _ (inject_Z n) HnQ).
    assert (inject_Z c / inject_Z n * 100 * inject_Z n == inject_Z (100 * c))%Q
      as ->.
    { rewrite inject_Z_mult. field. intros H0. rewrite H0 in HnQ.
      by apply Qlt_irrefl in HnQ. }
    rewrite <- inject_Z_mult, <- Zlt_Qlt. done.
Qed.

(** ** Insight classifier *)

Lemma high_stress_gt (fdf : list Row) :
  fgt (high_stress_pct fdf) (Num 50) = true ↔
  (50 * length fdf <
   100 * length (filter (λ r, (7 < stress_level (raw r))%Z) fdf))%nat.
Proof.
  etrans; [exact (pct_gt_iff (λ r, 7 < stress_level (raw r)) fdf 50)|]. lia.
Qed.

Lemma low_activity_gt (fdf : list Row) :
  fgt (low_activity_pct fdf) (Num 60) = true ↔
  (60 * length fdf <
   100 * length (filter (λ r, (physical_activity_level (raw r) < 50)%Z) fdf))%nat.
Proof.
  etrans;
    [exact (pct_gt_iff (λ r, physical_activity_level (raw r) < 50) fdf 60)|].
  lia.
Qed.

Lemma sleep_disorders_gt (fdf : list Row) :
  fgt (sleep_disorders_pct fdf) (Num 30) = true ↔
  (30 * length fdf <
   100 * length (filter (λ r, sleep_disorder (raw r) ≠ "None"%string) fdf))%nat.
Proof.
  etrans;
    [exact (pct_gt_iff (λ r, sleep_disorder (raw r) ≠ "None"%string) fdf 30)|].
  lia.
Qed.

Lemma classify_shape (c : Theme) (fdf : list Row) :
  classify c fdf =
  duration_tier c (avg_sleep fdf) :: quality_tier c (avg_quality fdf) ::
    (if fgt (high_stress_pct fdf) (Num 50)
     then [Insight "High Stress Levels" (accent4 c) (high_stress_pct fdf)]
     else []) ++
    (if fgt (low_activity_pct fdf) (Num 60)
     then [Insight "Low Physical Activity" (accent5 c) (low_activity_pct fdf)]
     else []) ++
    (if fgt (sleep_disorders_pct fdf) (Num 30)
     then [Insight "Sleep Disorders Present" (accent4 c)
             (sleep_disorders_pct fdf)]
     else []).
Proof.
  unfold classify, duration_tier, quality_tier. cbv zeta.
  destruct (flt (avg_sleep fdf) six), (flt (avg_sleep fdf) seven),
    (flt (avg_quality fdf) five), (flt (avg_quality fdf) seven),
    (fgt (high_stress_pct fdf) (Num 50)),
    (fgt (low_activity_pct fdf) (Num 60)),
    (fgt (sleep_disorders_pct fdf) (Num 30)); reflexivity.
Qed.

Lemma duration_tier_Num (c : Theme) (q : Q) :
  ((q < 6)%Q →
   duration_tier c (Num q) = Insight "Sleep Duration Alert" (accent4 c) (Num q)) ∧
  ((6 <= q)%Q → (q < 7)%Q →
   duration_tier c (Num q) =
   Insight "Sleep Duration Concern" (accent5 c) (Num q)) ∧
  ((7 <= q)%Q →
   duration_tier c (Num q) =
   Insight "Healthy Sleep Duration" (accent2 c) (Num q)).
Proof.
  unfold duration_tier, six, seven.
  destruct (flt (Num q) (Num 6)) eqn:H6; destruct (flt (Num q) (Num 7)) eqn:H7;
    try apply flt_Num in H6; try apply flt_Num in H7;
    try (apply not_true_iff_false in H6; rewrite flt_Num in H6);
    try (apply not_true_iff_false in H7; rewrite flt_Num in H7);
    repeat split; intros; first [reflexivity | exfalso; lra].
Qed.

(** The callback on values is the callback with the exact statistics. *)
Lemma personalized_insights_exact
    (g a o d theme : option string) (df : list Row) :
  update_personalized_insights g a o d theme df =
  personalized_insights_with exact_stats g a o d theme df.
Proof. reflexivity. Qed.

Lemma classify_stats_head (c : Theme) (st : Stats) :
  classify_stats c st !! 0%nat = Some (duration_tier c (st_avg_sleep st)).
Proof.
  unfold classify_stats, duration_tier. cbv zeta.
  destruct (flt (st_avg_sleep st) six), (flt (st_avg_sleep st) seven),
    (flt (st_avg_quality st) five), (flt (st_avg_quality st) seven),
    (fgt (st_high_stress_pct st) (Num 50)),
    (fgt (st_low_activity_pct st) (Num 60)),
    (fgt (st_sleep_disorders_pct st) (Num 30)); reflexivity.
Qed.

(** C4. For every filter and dataset, and however the aggregate step
    computes its statistics (in float64 in the code), when the mean
    sleep duration it returns for the filtered rows is the number [q],
    the first insight is the "alert" tier if [q < 6], the "concern" tier
    if [6 <= q < 7] (so at exactly 6.0) and the "healthy" tier if
    [7 <= q] (so at exactly 7.0). *)
Theorem duration_tier_boundaries
    (aggregate : list Row → Stats)
    (g a o d theme : option string) (df : list Row) (q : Q) :
  st_avg_sleep (aggregate (filter_data g a o d df)) = Num q →
  let out := personalized_insights_with aggregate g a o d theme df in
  let c := theme_colors theme in
  ((q < 6)%Q →
   out !! 0%nat = Some (Insight "Sleep Duration Alert" (accent4 c) (Num q))) ∧
  ((6 <= q)%Q → (q < 7)%Q →
   out !! 0%nat = Some (Insight "Sleep Duration Concern" (accent5 c) (Num q))) ∧
  ((7 <= q)%Q →
   out !! 0%nat = Some (Insight "Healthy Sleep Duration" (accent2 c) (Num q))) ∧
  ((q == 6)%Q →
   out !! 0%nat = Some (Insight "Sleep Duration Concern" (accent5 c) (Num q))) ∧
  ((q == 7)%Q →
   out !! 0%nat = Some (Insight "Healthy Sleep Duration" (accent2 c) (Num q))).
Proof.
  intros Hq out c. subst out. unfold personalized_insights_with. cbv zeta.
  fold c.
  assert (∀ st, (classify_stats c st ++ [TopFactors (accent1 c)]) !! 0%nat =
                Some (duration_tier c (st_avg_sleep st))) as Hhead.
  { intros st. rewrite lookup_app_l; [apply classify_stats_head|].
    apply lookup_lt_is_Some. rewrite classify_stats_head. by eexists. }
  rewrite Hhead, Hq.
  destruct (duration_tier_Num c q) as (Ha & Hc & Hh).
  repeat split; intros.
  - by rewrite Ha.
  - by rewrite Hc.
  - by rewrite Hh.
  - rewrite Hc; [done| |]; lra.
  - rewrite Hh; [done|]; lra.
Qed.

(** A frame of one row that sleeps exactly six hours: its mean is 6.0 in
    any arithmetic. *)
Lemma duration_tier_boundaries_witness :
  update_personalized_insights All All All All None
    (add_age_group [scenario_row nurse 41 "Female" 6 7 4 55 "None"]) !! 0%nat
  = Some (Insight "Sleep Duration Concern" (accent5 light_theme) (Num 6)).
Proof.
  refine (proj1 (proj2 (proj2 (proj2
    (duration_tier_boundaries exact_stats All All All All None
       (add_age_group [scenario_row nurse 41 "Female" 6 7 4 55 "None"]) 6
       eq_refl)))) _).
  reflexivity.
Defined.

Lemma duration_tier_cases (c : Theme) (m : float) :
  duration_tier c m ∈
    [ Insight "Sleep Duration Alert" (accent4 c) m;
      Insight "Sleep Duration Concern" (accent5 c) m;
      Insight "Healthy Sleep Duration" (accent2 c) m ].
Proof.
  unfold duration_tier. destruct (flt m six), (flt m seven);
    repeat first [apply list_elem_of_here | apply list_elem_of_further].
Qed.

Lemma quality_tier_cases (c : Theme) (m : float) :
  quality_tier c m ∈
    [ Insight "Poor Sleep Quality" (accent4 c) m;
      Insight "Moderate Sleep Quality" (accent5 c) m;
      Insight "Good Sleep Quality" (accent2 c) m ].
Proof.
  unfold quality_tier. destruct (flt m five), (flt m seven);
    repeat first [apply list_elem_of_here | apply list_elem_of_further].
Qed.

(** Membership in the block of optional warnings. *)
Lemma warnings_block (b1 b2 b3 : bool) (w1 w2 w3 : Child) :
  w1 ≠ w2 → w1 ≠ w3 → w2 ≠ w3 →
  let ws := (if b1 then [w1] else []) ++ (if b2 then [w2] else []) ++
            (if b3 then [w3] else []) in
  ws `sublist_of` [w1; w2; w3] ∧
  (w1 ∈ ws ↔ b1 = true) ∧ (w2 ∈ ws ↔ b2 = true) ∧ (w3 ∈ ws ↔ b3 = true).
Proof.
  intros H12 H13 H23 ws. subst ws.
  destruct b1, b2, b3; simpl;
    (split; [repeat first [apply sublist_nil | apply sublist_skip
                          | apply sublist_cons]|]);
    rewrite ?elem_of_cons, ?elem_of_nil; intuition congruence.
Qed.

(** C6. For every filter and dataset the insight panel is: the sleep
    duration tier, then the sleep quality tier, then those of the three
    warnings whose threshold is exceeded, in the order high stress, low
    activity, sleep disorders, then the closing block. The high-stress
    warning is there exactly when more than 50% of the filtered rows
    have stress above 7, the low-activity warning exactly when more than
    60% have activity below 50, the disorder warning exactly when more
    than 30% have a sleep disorder other than "None". *)
Theorem insights_fixed_order (g a o d theme : option string) (df : list Row) :
  let fdf := filter_data g a o d df in
  let c := theme_colors theme in
  let stress := Insight "High Stress Levels" (accent4 c) (high_stress_pct fdf) in
  let activity :=
    Insight "Low Physical Activity" (accent5 c) (low_activity_pct fdf) in
  let disorder :=
    Insight "Sleep Disorders Present" (accent4 c) (sleep_disorders_pct fdf) in
  ∃ (dur qual : Child) (ws : list Child),
    update_personalized_insights g a o d theme df =
      dur :: qual :: ws ++ [TopFactors (accent1 c)] ∧
    dur ∈ [ Insight "Sleep Duration Alert" (accent4 c) (avg_sleep fdf);
            Insight "Sleep Duration Concern" (accent5 c) (avg_sleep fdf);
            Insight "Healthy Sleep Duration" (accent2 c) (avg_sleep fdf) ] ∧
    qual ∈ [ Insight "Poor Sleep Quality" (accent4 c) (avg_quality fdf);
             Insight "Moderate Sleep Quality" (accent5 c) (avg_quality fdf);
             Insight "Good Sleep Quality" (accent2 c) (avg_quality fdf) ] ∧
    ws `sublist_of` [stress; activity; disorder] ∧
    (stress ∈ ws ↔
     (50 * length fdf <
      100 * length (filter (λ r, (7 < stress_level (raw r))%Z) fdf))%nat) ∧
    (activity ∈ ws ↔
     (60 * length fdf <
      100 * length
              (filter (λ r, (physical_activity_level (raw r) < 50)%Z) fdf))%nat) ∧
    (disorder ∈ ws ↔
     (30 * length fdf <
      100 * length
              (filter (λ r, sleep_disorder (raw r) ≠ "None"%string) fdf))%nat).
Proof.
  intros fdf c stress activity disorder.
  unfold update_personalized_insights, insight_panel. fold fdf c.
  rewrite classify_shape. fold stress activity disorder.
  eexists _, _, _. split; [reflexivity|].
  split; [apply duration_tier_cases|]. split; [apply quality_tier_cases|].
  rewrite <- high_stress_gt, <- low_activity_gt, <- sleep_disorders_gt.
  apply warnings_block; subst stress activity disorder; congruence.
Qed.

(** ** The end-to-end scenario *)

(** C5, as stated, fails twice: in the scenario filtered on "Male" the
    mean sleep duration 5.75 is below 6, so the first insight is the
    "alert" tier and not the "concern" tier; and the high-stress
    percentage is exactly 50, so the high-stress warning, which needs
    more than 50, is not emitted. *)
Lemma scenario_male_counterexample :
  let df := scenario nurse teacher nurse in
  let fdf := filter_data (Some "Male"%string) All All All df in
  let out :=
    update_personalized_insights (Some "Male"%string) All All All None df in
  avg_sleep fdf = Num (23 # 4) ∧
  out !! 0%nat ≠
    Some (Insight "Sleep Duration Concern" (accent5 light_theme)
            (Num (23 # 4))) ∧
  high_stress_pct fdf = Num 50 ∧
  fgt (Num 50) (Num 50) = false ∧
  (Insight "High Stress Levels" (accent4 light_theme) (Num 50) ∉ out) ∧
  Forall (λ ch, ∀ col v, ch ≠ Insight "High Stress Levels" col v) out.
Proof.
  intros df fdf out.
  assert (out =
    [ Insight "Sleep Duration Alert" (accent4 light_theme) (Num (23 # 4));
      Insight "Poor Sleep Quality" (accent4 light_theme) (Num (9 # 2));
      Insight "Low Physical Activity" (accent5 light_theme) (Num 100);
      Insight "Sleep Disorders Present" (accent4 light_theme) (Num 50);
      TopFactors (accent1 light_theme) ]) as -> by reflexivity.
  split; [reflexivity|]. split; [discriminate|].
  split; [reflexivity|]. split; [reflexivity|]. split.
  - rewrite !elem_of_cons, elem_of_nil. intuition congruence.
  - repeat constructor; intros; discriminate.
Qed.

(** C5 (amended). In the scenario, for any values of the columns it
    leaves open and any theme, filtering on gender "Male" keeps two rows,
    the first and the third; their mean sleep duration 5.75 is below 6
    and gives the "alert" tier, their mean quality 4.5 the "poor" tier;
    50% of them have a disorder, which is more than 30% and emits the
    disorder warning; 50% of them have stress above 7, which is not more
    than 50%, so no high-stress warning is emitted. *)
Theorem scenario_male (b1 b2 b3 : RawRow) (theme : option string) :
  let df := scenario b1 b2 b3 in
  let fdf := filter_data (Some "Male"%string) All All All df in
  let c := theme_colors theme in
  let out :=
    update_personalized_insights (Some "Male"%string) All All All theme df in
  fdf = add_age_group
          [ scenario_row b1 25 "Male" 5 3 9 20 "Insomnia";
            scenario_row b3 45 "Male" (13 # 2) 6 6 40 "None" ] ∧
  length fdf = 2%nat ∧
  avg_sleep fdf = Num (23 # 4) ∧
  avg_quality fdf = Num (9 # 2) ∧
  sleep_disorders_pct fdf = Num 50 ∧
  high_stress_pct fdf = Num 50 ∧
  out !! 0%nat =
    Some (Insight "Sleep Duration Alert" (accent4 c) (Num (23 # 4))) ∧
  out !! 1%nat = Some (Insight "Poor Sleep Quality" (accent4 c) (Num (9 # 2))) ∧
  Insight "Sleep Disorders Present" (accent4 c) (Num 50) ∈ out ∧
  (∀ col v, Insight "High Stress Levels" col v ∉ out).
Proof.
  intros df fdf c out.
  assert (fdf = add_age_group
          [ scenario_row b1 25 "Male" 5 3 9 20 "Insomnia";
            scenario_row b3 45 "Male" (13 # 2) 6 6 40 "None" ]) as Hf
    by reflexivity.
  assert (out =
    [ Insight "Sleep Duration Alert" (accent4 c) (Num (23 # 4));
      Insight "Poor Sleep Quality" (accent4 c) (Num (9 # 2));
      Insight "Low Physical Activity" (accent5 c) (Num 100);
      Insight "Sleep Disorders Present" (accent4 c) (Num 50);
      TopFactors (accent1 c) ]) as Hout by reflexivity.
  rewrite Hout, Hf. repeat split; try reflexivity.
  - repeat first [apply list_elem_of_here | apply list_elem_of_further].
  - intros col v. rewrite !elem_of_cons, elem_of_nil. intuition congruence.
Qed.

(** ** Empty subsets *)

Lemma filter_data_empty_stats (fdf : list Row) :
  fdf = [] →
  avg_sleep fdf = NaN ∧ avg_quality fdf = NaN ∧ avg_stress fdf = NaN ∧
  avg_activity fdf = NaN ∧ sleep_disorders_pct fdf = NaN ∧
  high_stress_pct fdf = NaN ∧ low_activity_pct fdf = NaN.
Proof. intros ->. repeat split. Qed.

(** C2, as stated, fails: a filter that matches no row makes every
    statistic NaN, and the NaN is what the summary cards show. *)
Lemma empty_subset_nan_counterexample :
  let df := scenario nurse teacher nurse in
  let g := Some "Other"%string in
  filter_data g All All All df = [] ∧
  card_value <$> update_summary_cards g All All All None df =
    [NaN; NaN; NaN; NaN] ∧
  sleep_disorders_pct (filter_data g All All All df) = NaN ∧
  high_stress_pct (filter_data g All All All df) = NaN ∧
  low_activity_pct (filter_data g All All All df) = NaN ∧
  ¬ (∀ g a o d df, filter_data g a o d df = [] →
       is_nan (avg_sleep (filter_data g a o d df)) = false).
Proof.
  repeat split.
  intros H.
  specialize (H (Some "Other"%string) All All All (scenario nurse teacher nurse)
                eq_refl).
  discriminate H.
Qed.

(** C2 (amended). For every filter whose filtered subset is empty, each
    of the seven statistics (the four means and the three percentages)
    is the float NaN, the four summary cards carry NaN, and computing
    them raises nothing: there is no separate "no data" value. *)
Theorem empty_subset_statistics
    (g a o d theme : option string) (df : list Row) :
  filter_data g a o d df = [] →
  let fdf := filter_data g a o d df in
  avg_sleep fdf = NaN ∧ avg_quality fdf = NaN ∧ avg_stress fdf = NaN ∧
  avg_activity fdf = NaN ∧ sleep_disorders_pct fdf = NaN ∧
  high_stress_pct fdf = NaN ∧ low_activity_pct fdf = NaN ∧
  card_value <$> update_summary_cards g a o d theme df = [NaN; NaN; NaN; NaN].
Proof.
  intros He fdf. subst fdf.
  destruct (filter_data_empty_stats _ He) as (H1 & H2 & H3 & H4 & H5 & H6 & H7).
  repeat split; try assumption.
  unfold update_summary_cards, summary_cards. csimpl.
  by rewrite H1, H2, H3, H4.
Qed.

Lemma empty_subset_statistics_witness :
  card_value <$>
    update_summary_cards (Some "Other"%string) All All All None
      (scenario nurse teacher nurse) = [NaN; NaN; NaN; NaN].
Proof.
  apply (empty_subset_statistics (Some "Other"%string) All All All None
           (scenario nurse teacher nurse) eq_refl).
Defined.

(** With NaN for every statistic both ladders fall through to their last
    branch and no warning fires. *)
Lemma empty_subset_insights (g a o d theme : option string) (df : list Row) :
  filter_data g a o d df = [] →
  update_personalized_insights g a o d theme df =
    [ Insight "Healthy Sleep Duration" (accent2 (theme_colors theme)) NaN;
      Insight "Good Sleep Quality" (accent2 (theme_colors theme)) NaN;
      TopFactors (accent1 (theme_colors theme)) ].
Proof. unfold update_personalized_insights. by intros ->. Qed.

(** The trend callback does raise on an empty subset. *)
Lemma empty_subset_trend_raises (g a o d theme : option string) (df : list Row) :
  filter_data g a o d df = [] →
  update_trend_analysis g a o d theme df = IndexError.
Proof. unfold update_trend_analysis. by intros ->. Qed.

(** ** Sorting, distinct values and groups *)

Section isort.
Context {A : Type} (le : A → A → bool).
Hypothesis le_total : ∀ a b, le a b = true ∨ le b a = true.

Lemma insert_sorted_perm (x : A) (l : list A) :
  insert_sorted le x l ≡ₚ x :: l.
Proof.
  induction l as [|y l IH]; [done|]. simpl.
  destruct (le x y); [done|]. rewrite IH. apply Permutation_swap.
Qed.

Lemma isort_perm (l : list A) : isort le l ≡ₚ l.
Proof.
  induction l as [|x l IH]; [done|]. unfold isort in *. simpl.
  by rewrite insert_sorted_perm, IH.
Qed.



End isort.


Lemma elem_of_unique {A} `{EqDecision A} (l : list A) (x : A) :
  x ∈ unique l ↔ x ∈ l.
Proof.
  induction l as [|y l IH]; [done|]. simpl.
  rewrite !elem_of_cons, list_elem_of_filter, IH.
  destruct (decide (x = y)); tauto.
Qed.

Lemma NoDup_unique {A} `{EqDecision A} (l : list A) : NoDup (unique l).
Proof.
  induction l as [|y l IH]; simpl; constructor.
  - rewrite list_elem_of_filter. intros [Hne _]. by apply Hne.
  - by apply NoDup_filter.
Qed.





(** ** Occupation analysis *)




(** The scenario has two occupations: the groups come out with the
    better mean quality first. *)
Example occupation_figure_scenario :
  occupation_figure light_theme (scenario nurse teacher nurse)
                    (scenario nurse teacher nurse) =
  Ok (mkFigure
        [ mkBar ["Teacher"; "Nurse"]%string [Num 8; Num (9 # 2)]
                "Sleep Quality" "#009E73";
          mkBar ["Teacher"; "Nurse"]%string [Num 2; Num (15 # 2)]
                "Stress Level" "#E69F00" ]
        "Sleep Quality & Stress by Occupation" None).
Proof. vm_compute. reflexivity. Qed.

(** ** Callbacks leave the dataset alone *)

Module StoreFacts.
Import Store.

Section heap.
Context {R : Type}.
Implicit Types h : gmap nat (list R).

Lemma bind_Some {A B} (m : M R A) (f : A → M R B) h a h' :
  m h = Some (a, h') → (x ← m; f x) h = f a h'.
Proof. intros Hm. unfold mbind, M_bind. by rewrite Hm. Qed.

Lemma alloc_fresh (rows : list R) h :
  ∃ l, alloc rows h = Some (l, <[l := rows]> h) ∧ h !! l = None.
Proof.
  exists (fresh (dom h)). split; [done|].
  apply not_elem_of_dom, is_fresh.
Qed.

Lemma read_Some (l : nat) (rows : list R) h :
  h !! l = Some rows → read l h = Some (rows, h).
Proof. intros Hl. unfold read. by rewrite Hl. Qed.

(** Copying or masking a frame that exists yields a new location; the
    frames of [h0], an earlier state of the store, stay as they are. *)
Lemma getitem_mask_spec (P : R → Prop) `{!∀ r, Decision (P r)}
    (l : nat) (rows : list R) h0 h :
  h0 ⊆ h → h !! l = Some rows →
  ∃ l' h', getitem_mask l P h = Some (l', h') ∧ h0 ⊆ h' ∧
           h0 !! l' = None ∧ h' !! l' = Some (filter P rows).
Proof.
  intros Hsub Hl. unfold getitem_mask.
  rewrite (bind_Some _ _ _ _ _ (read_Some _ _ _ Hl)).
  destruct (alloc_fresh (filter P rows) h) as (l' & -> & Hfresh).
  exists l', (<[l' := filter P rows]> h).
  split; [done|]. split; [|split].
  - etrans; [exact Hsub|]. by apply insert_subseteq.
  - destruct (h0 !! l') eqn:H0; [|done].
    eapply lookup_weaken in H0; [|exact Hsub]. congruence.
  - apply lookup_insert_eq.
Qed.

Lemma copy_spec (l : nat) (rows : list R) h0 h :
  h0 ⊆ h → h !! l = Some rows →
  ∃ l' h', copy l h = Some (l', h') ∧ h0 ⊆ h' ∧
           h0 !! l' = None ∧ h' !! l' = Some rows.
Proof.
  intros Hsub Hl. unfold copy.
  rewrite (bind_Some _ _ _ _ _ (read_Some _ _ _ Hl)).
  destruct (alloc_fresh rows h) as (l' & -> & Hfresh).
  exists l', (<[l' := rows]> h).
  split; [done|]. split; [|split].
  - etrans; [exact Hsub|]. by apply insert_subseteq.
  - destruct (h0 !! l') eqn:H0; [|done].
    eapply lookup_weaken in H0; [|exact Hsub]. congruence.
  - apply lookup_insert_eq.
Qed.

(** Writing a frame allocated after [h0] leaves the frames of [h0]. *)
Lemma setitem_spec (f : R → R) (l : nat) (rows : list R) h0 h :
  h0 ⊆ h → h0 !! l = None → h !! l = Some rows →
  ∃ h', setitem l f h = Some ((), h') ∧ h0 ⊆ h' ∧
        h' !! l = Some (f <$> rows).
Proof.
  intros Hsub H0 Hl. unfold setitem. rewrite Hl.
  eexists. split; [done|]. split.
  - by apply insert_subseteq_r.
  - apply lookup_insert_eq.
Qed.

(** One guarded filter step of the filter block. *)
Lemma guarded_step_spec (v : option string) (P : R → Prop)
    `{!∀ r, Decision (P r)} (l : nat) (rows : list R) h0 h :
  h0 ⊆ h → h0 !! l = None → h !! l = Some rows →
  ∃ l' h',
    (if decide (v ≠ All) then getitem_mask l P else mret l) h
      = Some (l', h') ∧
    h0 ⊆ h' ∧ h0 !! l' = None ∧
    h' !! l' = Some (if decide (v ≠ All) then filter P rows else rows).
Proof.
  intros Hsub H0 Hl. destruct (decide (v ≠ All)).
  - by apply getitem_mask_spec.
  - by exists l, h.
Qed.
End heap.

Lemma filter_block_spec (df : nat) (g a o d : option string)
    (rows : list Row) (h : gmap nat (list Row)) :
  h !! df = Some rows →
  ∃ l h', filter_block df g a o d h = Some (l, h') ∧ h ⊆ h' ∧
          h !! l = None ∧ h' !! l = Some (filter_data g a o d rows).
Proof.
  intros Hdf. unfold filter_block.
  destruct (copy_spec df rows h h) as (l0 & h0 & E0 & S0 & F0 & L0);
    [done|done|].
  rewrite (bind_Some _ _ _ _ _ E0).
  destruct (guarded_step_spec g (λ r, cell_eq (gender (raw r)) g)
              l0 rows h h0) as (l1 & h1 & E1 & S1 & F1 & L1); [done..|].
  rewrite (bind_Some _ _ _ _ _ E1).
  destruct (guarded_step_spec a (λ r, cat_eq (age_group r) a)
              l1 _ h h1 S1 F1 L1) as (l2 & h2 & E2 & S2 & F2 & L2).
  rewrite (bind_Some _ _ _ _ _ E2).
  destruct (guarded_step_spec o (λ r, cell_eq (occupation (raw r)) o)
              l2 _ h h2 S2 F2 L2) as (l3 & h3 & E3 & S3 & F3 & L3).
  rewrite (bind_Some _ _ _ _ _ E3).
  destruct (guarded_step_spec d (λ r, cell_eq (sleep_disorder (raw r)) d)
              l3 _ h h3 S3 F3 L3) as (l4 & h4 & E4 & S4 & F4 & L4).
  rewrite (bind_Some _ _ _ _ _ E4).
  exists l4, h4. split; [done|]. split; [done|]. split; [done|].
  rewrite L4. reflexivity.
Qed.

(** Every callback of the main dashboard returns, and every frame that
    was in the store before is in it unchanged after. *)
Lemma run_callback_frame (df : nat) (i : Interaction) (rows : list Row)
    (h : gmap nat (list Row)) :
  h !! df = Some rows →
  ∃ out h', run_callback df i h = Some (out, h') ∧ h ⊆ h'.
Proof.
  intros Hdf.
  destruct i as [n cur|g a o d theme|g a o d theme|tab g a o d theme
                |g a o d theme|g a o d theme]; simpl.
  - by eexists _, h.
  - destruct (filter_block_spec df g a o d rows h Hdf)
      as (l & h' & E & S & F & L).
    unfold update_summary_cards.
    rewrite (bind_Some _ _ _ _ _ E), (bind_Some _ _ _ _ _ (read_Some _ _ _ L)).
    by eexists _, h'.
  - destruct (filter_block_spec df g a o d rows h Hdf)
      as (l & h' & E & S & F & L).
    unfold update_sleep_patterns.
    rewrite (bind_Some _ _ _ _ _ E), (bind_Some _ _ _ _ _ (read_Some _ _ _ L)).
    by eexists _, h'.
  - destruct (filter_block_spec df g a o d rows h Hdf)
      as (l & h' & E & S & F & L).
    unfold update_factor_content. rewrite (bind_Some _ _ _ _ _ E).
    destruct (decide (tab = Some "stress"%string));
      [|destruct (decide (tab = Some "activity"%string))].
    + rewrite (bind_Some _ _ _ _ _ (read_Some _ _ _ L)). by eexists _, h'.
    + rewrite (bind_Some _ _ _ _ _ (read_Some _ _ _ L)). by eexists _, h'.
    + destruct (setitem_spec set_bmi_category l _ h h' S F L)
        as (h'' & E' & S' & L').
      rewrite (bind_Some _ _ _ _ _ E'),
        (bind_Some _ _ _ _ _ (read_Some _ _ _ L')).
      by eexists _, h''.
  - destruct (filter_block_spec df g a o d rows h Hdf)
      as (l & h' & E & S & F & L).
    unfold update_trend_analysis.
    rewrite (bind_Some _ _ _ _ _ E), (bind_Some _ _ _ _ _ (read_Some _ _ _ L)).
    rewrite (bind_Some _ _ _ _ _
               (read_Some _ _ _ (lookup_weaken _ _ _ _ Hdf S))).
    by eexists _, h'.
  - destruct (filter_block_spec df g a o d rows h Hdf)
      as (l & h' & E & S & F & L).
    unfold update_personalized_insights.
    rewrite (bind_Some _ _ _ _ _ E), (bind_Some _ _ _ _ _ (read_Some _ _ _ L)).
    by eexists _, h'.
Qed.

Lemma run_session_frame (df : nat) (session : list Interaction)
    (rows : list Row) (h : gmap nat (list Row)) :
  h !! df = Some rows →
  ∃ outs h', run_session df session h = Some (outs, h') ∧ h ⊆ h' ∧
             length outs = length session.
Proof.
  revert h. induction session as [|i session IH]; intros h Hdf; simpl.
  - by exists [], h.
  - destruct (run_callback_frame df i rows h Hdf) as (out & h1 & E1 & S1).
    rewrite (bind_Some _ _ _ _ _ E1).
    destruct (IH h1 (lookup_weaken _ _ _ _ Hdf S1)) as (outs & h2 & E2 & S2 & Hl).
    rewrite (bind_Some _ _ _ _ _ E2).
    exists (out :: outs), h2. split; [done|]. split; [by etrans|].
    simpl. by rewrite Hl.
Qed.

Lemma update_dashboard_frame (df : nat) (g : option string)
    (rows : list RawRow) (h : gmap nat (list RawRow)) :
  h !! df = Some rows →
  ∃ charts h', update_dashboard df g h = Some (charts, h') ∧ h ⊆ h' ∧
    Forall (λ ch, chart_rows ch = update_dashboard_filter g rows) charts.
Proof.
  intros Hdf. unfold update_dashboard, update_dashboard_filter.
  destruct (decide (g = None ∨ g = All)).
  - rewrite (bind_Some (mret df) _ h df h eq_refl).
    rewrite (bind_Some _ _ _ _ _ (read_Some _ _ _ Hdf)).
    eexists _, h. split; [done|]. split; [done|]. by repeat constructor.
  - destruct (getitem_mask_spec (λ r, cell_eq (gender r) g) df rows h h)
      as (l & h' & E & S & F & L); [done..|].
    rewrite (bind_Some _ _ _ _ _ E), (bind_Some _ _ _ _ _ (read_Some _ _ _ L)).
    eexists _, h'. split; [done|]. split; [done|]. by repeat constructor.
Qed.

End StoreFacts.

(** The store callbacks compute what the callbacks on values compute. *)
Lemma store_callbacks_agree (df : nat) (g a o d theme : option string)
    (rows : list Row) (h : gmap nat (list Row)) :
  h !! df = Some rows →
  (∃ h', Store.update_summary_cards df g a o d theme h =
           Some (Store.OutCards (update_summary_cards g a o d theme rows), h')) ∧
  (∃ h', Store.update_personalized_insights df g a o d theme h =
           Some (Store.OutInsights
                   (update_personalized_insights g a o d theme rows), h')) ∧
  (∃ h', Store.update_trend_analysis df g a o d theme h =
           Some (Store.OutTrend (update_trend_analysis g a o d theme rows), h')).
Proof.
  intros Hdf.
  destruct (StoreFacts.filter_block_spec df g a o d rows h Hdf)
    as (l & h' & E & S & F & L).
  repeat split; exists h'.
  - unfold Store.update_summary_cards.
    by rewrite (StoreFacts.bind_Some _ _ _ _ _ E),
      (StoreFacts.bind_Some _ _ _ _ _ (StoreFacts.read_Some _ _ _ L)).
  - unfold Store.update_personalized_insights.
    by rewrite (StoreFacts.bind_Some _ _ _ _ _ E),
      (StoreFacts.bind_Some _ _ _ _ _ (StoreFacts.read_Some _ _ _ L)).
  - unfold Store.update_trend_analysis.
    by rewrite (StoreFacts.bind_Some _ _ _ _ _ E),
      (StoreFacts.bind_Some _ _ _ _ _ (StoreFacts.read_Some _ _ _ L)),
      (StoreFacts.bind_Some _ _ _ _ _
         (StoreFacts.read_Some _ _ _ (lookup_weaken _ _ _ _ Hdf S))).
Qed.

(** C9. In a store where the global [df] holds the dataset, every
    callback of either dashboard, for any filter values, tab and theme,
    returns and leaves the frame of [df] and every other frame that
    existed before equal to what it was; so does any sequence of
    interactions. Filtering and the BMI relabelling write only frames
    allocated during the callback. *)
Theorem callbacks_preserve_dataset
    (df : nat) (rows : list Row) (h : gmap nat (list Row))
    (df2 : nat) (rows2 : list RawRow) (h2 : gmap nat (list RawRow)) :
  h !! df = Some rows →
  h2 !! df2 = Some rows2 →
  (∀ i : Store.Interaction, ∃ out h',
     Store.run_callback df i h = Some (out, h') ∧ h' !! df = Some rows ∧
     ∀ l frame, h !! l = Some frame → h' !! l = Some frame) ∧
  (∀ session : list Store.Interaction, ∃ outs h',
     Store.run_session df session h = Some (outs, h') ∧
     length outs = length session ∧ h' !! df = Some rows ∧
     ∀ l frame, h !! l = Some frame → h' !! l = Some frame) ∧
  (∀ g : option string, ∃ charts h',
     Store.update_dashboard df2 g h2 = Some (charts, h') ∧
     h' !! df2 = Some rows2 ∧
     ∀ l frame, h2 !! l = Some frame → h' !! l = Some frame).
Proof.
  intros Hdf Hdf2. repeat split.
  - intros i.
    destruct (StoreFacts.run_callback_frame df i rows h Hdf)
      as (out & h' & E & S).
    exists out, h'. split; [done|]. split.
    + by eapply lookup_weaken.
    + intros l frame Hl. by eapply lookup_weaken.
  - intros session.
    destruct (StoreFacts.run_session_frame df session rows h Hdf)
      as (outs & h' & E & S & Hlen).
    exists outs, h'. split; [done|]. split; [done|]. split.
    + by eapply lookup_weaken.
    + intros l frame Hl. by eapply lookup_weaken.
  - intros g.
    destruct (StoreFacts.update_dashboard_frame df2 g rows2 h2 Hdf2)
      as (charts & h' & E & S & _).
    exists charts, h'. split; [done|]. split.
    + by eapply lookup_weaken.
    + intros l frame Hl. by eapply lookup_weaken.
Qed.

(** The BMI tab on the scenario: the relabelling happens, on a copy. *)
Lemma callbacks_preserve_dataset_witness :
  ∃ out h',
    Store.run_callback 0%nat
      (Store.FactorContent (Some "bmi"%string) All All All All None)
      {[ 0%nat := scenario nurse teacher nurse ]} = Some (out, h') ∧
    h' !! 0%nat = Some (scenario nurse teacher nurse).
Proof.
  destruct (callbacks_preserve_dataset
              0%nat (scenario nurse teacher nurse)
              {[ 0%nat := scenario nurse teacher nurse ]}
              0%nat [nurse] {[ 0%nat := [nurse] ]}
              (lookup_singleton_eq _ _) (lookup_singleton_eq _ _))
    as (Hcb & _ & _).
  destruct (Hcb (Store.FactorContent (Some "bmi"%string) All All All All None))
    as (out & h' & E & Hdf & _).
  exists out, h'. split; [exact E|exact Hdf].
Defined.

(** ** Loading *)

Module LoaderFacts.
Import Loader.

Lemma gen_bind_run {S A B} (m : Gen S A) (f : A → Gen S B) (s : S) :
  (x ← m; f x) s = f (m s).1 (m s).2.
Proof. unfold mbind, Gen_bind. by destruct (m s). Qed.

Lemma draws_length {S A} (draw : Gen S A) (n : nat) (s : S) :
  length (draws draw n s).1 = n.
Proof.
  revert s. induction n as [|n IH]; intros s; [done|].
  simpl. rewrite !gen_bind_run. simpl. by rewrite IH.
Qed.

Lemma scale_where_length (mask : list bool) (k : Q) (col : list Q) :
  length mask = length col → length (scale_where mask k col) = length col.
Proof. intros H. unfold scale_where. by rewrite length_zip_with, H, Nat.min_id. Qed.

Lemma add_where_length (mask : list bool) (k : Z) (col : list Z) :
  length mask = length col → length (add_where mask k col) = length col.
Proof. intros H. unfold add_where. by rewrite length_zip_with, H, Nat.min_id. Qed.

(** Lengths of generated and post-processed columns. *)
Ltac col_len :=
  repeat first
    [ rewrite length_fmap | rewrite draws_length
    | rewrite scale_where_length | rewrite add_where_length ];
  match goal with |- ?n = ?n => reflexivity end.

Section facts.
Context {rng csv : Type}.
Variable seed : Z → rng.
Variable randint1 : Z → Z → Gen rng Z.
Variable choice1 : list string → option (list Q) → Gen rng string.
Variable normal1 : Q → Q → Gen rng Q.
Variable read_csv : csv → option (list (string * Column)).
Variable to_csv : list (string * Column) → csv.

Abbreviation synthetic_main := (synthetic_main seed randint1 choice1 normal1).
Abbreviation synthetic_test2 := (synthetic_test2 seed randint1 choice1 normal1).
Abbreviation load_main := (load_main seed randint1 choice1 normal1 read_csv).
Abbreviation load_test2 :=
  (load_test2 seed randint1 choice1 normal1 read_csv to_csv).

(** Seeding first makes the sample independent of the generator state. *)
Lemma synthetic_main_seeded (s s' : rng) : synthetic_main s = synthetic_main s'.
Proof. unfold Loader.synthetic_main. by rewrite !(gen_bind_run (np_seed _ _)). Qed.

Lemma synthetic_test2_seeded (s s' : rng) :
  synthetic_test2 s = synthetic_test2 s'.
Proof. unfold Loader.synthetic_test2. by rewrite !(gen_bind_run (np_seed _ _)). Qed.

Lemma synthetic_main_shape (s : rng) :
  columns (synthetic_main s).1 =
    ["age"; "gender"; "occupation"; "sleep_duration"; "quality_of_sleep";
     "stress_level"; "physical_activity_level"; "heart_rate"; "daily_steps";
     "sleep_disorder"; "bmi_category"]%string ∧
  Forall (λ c, col_length c.2 = 200%nat) (synthetic_main s).1.
Proof.
  unfold Loader.synthetic_main, randint, choice, normal.
  repeat (rewrite gen_bind_run; cbv beta zeta).
  split; [reflexivity|].
  repeat constructor; cbn [snd col_length]; col_len.
Qed.

Lemma synthetic_test2_shape (s : rng) :
  columns (synthetic_test2 s).1 =
    ["gender"; "age"; "sleep_duration"; "quality_of_sleep";
     "physical_activity_level"; "stress_level"; "bmi_category"; "heart_rate";
     "daily_steps"; "sleep_disorder"]%string ∧
  Forall (λ c, col_length c.2 = 500%nat) (synthetic_test2 s).1.
Proof.
  unfold Loader.synthetic_test2, randint, choice, normal.
  repeat (rewrite gen_bind_run; cbv beta zeta).
  split; [reflexivity|].
  repeat constructor; cbn [snd col_length]; col_len.
Qed.

(** Without the file in either place the main dashboard generates its
    sample and changes no file. *)
Lemma load_main_absent (w : World rng csv) :
  fs w !! primary_path = None → fs w !! fallback_path = None →
  load_main w =
    LoadOk (synthetic_main (seed 42)).1
           (mkWorld (fs w) (synthetic_main (seed 42)).2).
Proof.
  intros Hp Hf. unfold Loader.load_main. cbv zeta.
  rewrite decide_True by done. rewrite Hf.
  rewrite (synthetic_main_seeded (np_state w) (seed 42)).
  by destruct (synthetic_main (seed 42)).
Qed.

(** Without the file the second dashboard generates its sample and
    writes it to the file. *)
Lemma load_test2_absent (w : World rng csv) :
  fs w !! primary_path = None →
  load_test2 w =
    LoadOk (synthetic_test2 (seed 42)).1
           (mkWorld (<[primary_path := to_csv (synthetic_test2 (seed 42)).1]>
                       (fs w))
                    (synthetic_test2 (seed 42)).2).
Proof.
  intros Hp. unfold Loader.load_test2. rewrite Hp.
  rewrite (synthetic_test2_seeded (np_state w) (seed 42)).
  by destruct (synthetic_test2 (seed 42)).
Qed.

Lemma load_test2_present (w : World rng csv) (file : csv) :
  fs w !! primary_path = Some file →
  load_test2 w =
    match read_csv file with
    | Some df => LoadOk df w
    | None => ParseFailure
    end.
Proof. intros Hp. unfold Loader.load_test2. by rewrite Hp. Qed.

End facts.
End LoaderFacts.

(** C8, as stated, fails for each dashboard in one part: with no file,
    the main dashboard generates its sample but writes no file, so the
    next load finds none again; the second dashboard writes the file,
    but its sample has no occupation column. *)
Lemma synthetic_fallback_counterexample :
  let w0 := Loader.mkWorld (∅ : gmap string (list (string * Loader.Column)))
                           7%nat in
  (∃ df w', Loader.counter_load_main w0 = Loader.LoadOk df w' ∧
            Loader.fs w' !! Loader.primary_path = None ∧
            Loader.fs w' !! Loader.fallback_path = None) ∧
  (∃ df w', Loader.counter_load_test2 w0 = Loader.LoadOk df w' ∧
            is_Some (Loader.fs w' !! Loader.primary_path) ∧
            "occupation"%string ∉ Loader.columns df).
Proof.
  intros w0. split.
  - eexists _, _. split.
    + apply LoaderFacts.load_main_absent; apply lookup_empty.
    + split; apply lookup_empty.
  - eexists _, _. split; [|split].
    + apply LoaderFacts.load_test2_absent; apply lookup_empty.
    + cbn [Loader.fs]. rewrite lookup_insert_eq. by eexists.
    + rewrite (proj1 (LoaderFacts.synthetic_test2_shape _ _ _ _ _)).
      rewrite !elem_of_cons, elem_of_nil. intros H.
      repeat (destruct H as [H|H]; [discriminate H|]). exact H.
Qed.

(** C8 (amended). When the CSV file is absent, each dashboard seeds the
    generator with 42 and generates a sample of fixed size that does not
    depend on the state of the generator, so every run without the file
    yields the same frame. The main dashboard, when the file is in
    neither of its two places, generates 200 rows with the eleven
    columns, occupation included, and leaves the file system as it was.
    The second dashboard generates 500 rows with the ten columns other
    than occupation and writes the frame to the CSV path; the next load
    then takes the file and generates nothing. *)
Theorem synthetic_fallback {rng csv : Type}
    (seed : Z → rng) (randint1 : Z → Z → Loader.Gen rng Z)
    (choice1 : list string → option (list Q) → Loader.Gen rng string)
    (normal1 : Q → Q → Loader.Gen rng Q)
    (read_csv : csv → option (list (string * Loader.Column)))
    (to_csv : list (string * Loader.Column) → csv)
    (w : Loader.World rng csv) :
  let load_main := Loader.load_main seed randint1 choice1 normal1 read_csv in
  let load_test2 :=
    Loader.load_test2 seed randint1 choice1 normal1 read_csv to_csv in
  Loader.fs w !! Loader.primary_path = None →
  (Loader.fs w !! Loader.fallback_path = None →
   ∃ df s,
     load_main w = Loader.LoadOk df (Loader.mkWorld (Loader.fs w) s) ∧
     Loader.columns df =
       ["age"; "gender"; "occupation"; "sleep_duration"; "quality_of_sleep";
        "stress_level"; "physical_activity_level"; "heart_rate";
        "daily_steps"; "sleep_disorder"; "bmi_category"]%string ∧
     Forall (λ c, Loader.col_length c.2 = 200%nat) df ∧
     ∀ w2, Loader.fs w2 !! Loader.primary_path = None →
           Loader.fs w2 !! Loader.fallback_path = None →
           ∃ s2, load_main w2 =
                   Loader.LoadOk df (Loader.mkWorld (Loader.fs w2) s2)) ∧
  (∃ df s,
     load_test2 w =
       Loader.LoadOk df
         (Loader.mkWorld (<[Loader.primary_path := to_csv df]> (Loader.fs w)) s)
     ∧
     Loader.columns df =
       ["gender"; "age"; "sleep_duration"; "quality_of_sleep";
        "physical_activity_level"; "stress_level"; "bmi_category";
        "heart_rate"; "daily_steps"; "sleep_disorder"]%string ∧
     Forall (λ c, Loader.col_length c.2 = 500%nat) df ∧
     (∀ w2, Loader.fs w2 !! Loader.primary_path = None →
            ∃ s2, load_test2 w2 =
                    Loader.LoadOk df
                      (Loader.mkWorld
                         (<[Loader.primary_path := to_csv df]> (Loader.fs w2))
                         s2)) ∧
     let w' :=
       Loader.mkWorld (<[Loader.primary_path := to_csv df]> (Loader.fs w)) s in
     load_test2 w' =
       match read_csv (to_csv df) with
       | Some df' => Loader.LoadOk df' w'
       | None => Loader.ParseFailure
       end).
Proof.
  intros load_main load_test2 Hp. split.
  - intros Hf. eexists _, _. split.
    { subst load_main. by apply LoaderFacts.load_main_absent. }
    destruct (LoaderFacts.synthetic_main_shape seed randint1 choice1 normal1
                (seed 42)) as [Hc Hl].
    split; [exact Hc|]. split; [exact Hl|].
    intros w2 Hp2 Hf2. eexists. subst load_main.
    by apply LoaderFacts.load_main_absent.
  - eexists _, _. split.
    { subst load_test2. by apply LoaderFacts.load_test2_absent. }
    destruct (LoaderFacts.synthetic_test2_shape seed randint1 choice1 normal1
                (seed 42)) as [Hc Hl].
    split; [exact Hc|]. split; [exact Hl|]. split.
    + intros w2 Hp2. eexists. subst load_test2.
      by apply LoaderFacts.load_test2_absent.
    + intros w'. subst load_test2.
      apply LoaderFacts.load_test2_present. subst w'. cbn [Loader.fs].
      apply lookup_insert_eq.
Qed.

Lemma synthetic_fallback_witness :
  let w0 := Loader.mkWorld (∅ : gmap string (list (string * Loader.Column)))
                           7%nat in
  ∃ df s,
    Loader.counter_load_test2 w0 =
      Loader.LoadOk df (Loader.mkWorld {[ Loader.primary_path := df ]} s) ∧
    length (Loader.columns df) = 10%nat.
Proof.
  intros w0.
  destruct (synthetic_fallback Loader.counter_seed Loader.counter_randint1
              Loader.counter_choice1 Loader.counter_normal1 Some id w0
              (lookup_empty _)) as (_ & df & s & Hload & Hcols & _).
  exists df, s. split; [exact Hload|]. by rewrite Hcols.
Defined.

(** * Further properties of the code *)

(** ** Composing filters *)

(** X1. Filter blocks compose: filtering a filtered frame keeps the rows
    that satisfy both specifications, so two filter blocks commute and
    applying the same one twice changes nothing. *)
Theorem filter_data_compose (g a o d g' a' o' d' : option string)
    (df : list Row) :
  filter_data g a o d (filter_data g' a' o' d' df) =
    filter (λ r, satisfies g a o d r ∧ satisfies g' a' o' d' r) df ∧
  filter_data g a o d (filter_data g' a' o' d' df) =
    filter_data g' a' o' d' (filter_data g a o d df) ∧
  filter_data g a o d (filter_data g a o d df) = filter_data g a o d df.
Proof.
  rewrite !filter_data_reference, !list_filter_filter.
  repeat split; apply list_filter_iff; intros r; tauto.
Qed.

(** X2. Setting dropdowns back to "All" never loses a row: the frame
    filtered by a specification is a subsequence of the frame filtered
    by any specification that keeps or resets each dropdown, and is no
    longer than it. *)
Theorem filter_data_relax (g a o d g' a' o' d' : option string)
    (df : list Row) :
  (g' = All ∨ g' = g) → (a' = All ∨ a' = a) →
  (o' = All ∨ o' = o) → (d' = All ∨ d' = d) →
  filter_data g a o d df `sublist_of` filter_data g' a' o' d' df ∧
  (length (filter_data g a o d df) ≤ length (filter_data g' a' o' d' df))%nat.
Proof.
  intros Hg Ha Ho Hd.
  assert (filter_data g a o d df =
          filter_data g a o d (filter_data g' a' o' d' df)) as Heq.
  { rewrite !filter_data_reference, list_filter_filter.
    apply list_filter_iff. intros r. unfold satisfies.
    destruct Hg as [->| ->], Ha as [->| ->], Ho as [->| ->], Hd as [->| ->];
      tauto. }
  split.
  - rewrite Heq. apply filter_data_sublist.
  - rewrite Heq. apply sublist_length, filter_data_sublist.
Qed.

Lemma filter_data_relax_witness :
  filter_data (Some "Male"%string) All All (Some "None"%string)
              (scenario nurse teacher nurse)
    `sublist_of`
  filter_data (Some "Male"%string) All All All (scenario nurse teacher nurse).
Proof.
  refine (proj1 (filter_data_relax (Some "Male"%string) All All
                   (Some "None"%string) (Some "Male"%string) All All All
                   (scenario nurse teacher nurse) _ _ _ _));
    [right|left|left|left]; reflexivity.
Defined.

Lemma filter_none {A} (P : A → Prop) `{!∀ x, Decision (P x)} (l : list A) :
  (∀ x, x ∈ l → ¬ P x) → filter P l = [].
Proof.
  induction l as [|x l IH]; intros Hall; [done|].
  rewrite filter_cons_False by (apply Hall; left).
  apply IH. intros y Hy. apply Hall. by right.
Qed.

(** X3. A cleared dropdown: in the main dashboard a dropdown without a
    value is not "All", and no cell equals no value, so the filtered
    frame is empty whatever the other dropdowns hold; the second
    dashboard treats the cleared dropdown like "All" and keeps every
    row. *)
Theorem cleared_dropdown (g a o d : option string) (df : list Row)
    (rows : list RawRow) :
  g = None ∨ a = None ∨ o = None ∨ d = None →
  filter_data g a o d df = [] ∧ update_dashboard_filter None rows = rows.
Proof.
  intros Hnone. split; [|done].
  rewrite filter_data_reference.
  apply filter_none. intros r Hr (Hg & Ha & Ho & Hd).
  destruct Hnone as [->|[->|[->| ->]]].
  - by specialize (Hg ltac:(done)).
  - specialize (Ha ltac:(done)). unfold cat_eq in Ha.
    by destruct (age_group r).
  - by specialize (Ho ltac:(done)).
  - by specialize (Hd ltac:(done)).
Qed.

Lemma cleared_dropdown_witness :
  filter_data All None All All (scenario nurse teacher nurse) = [] ∧
  update_dashboard_filter None [nurse; teacher] = [nurse; teacher].
Proof.
  apply (cleared_dropdown All None All All (scenario nurse teacher nurse)
           [nurse; teacher]).
  right; left; reflexivity.
Defined.

(** ** Dropdown options *)

Lemma filter_nonempty {A} (P : A → Prop) `{!∀ x, Decision (P x)} (l : list A) :
  filter P l ≠ [] ↔ ∃ x, x ∈ l ∧ P x.
Proof.
  split.
  - intros Hne. destruct (filter P l) as [|x l'] eqn:Hf; [done|].
    exists x. assert (x ∈ filter P l) as Hx by (rewrite Hf; left).
    apply list_elem_of_filter in Hx. tauto.
  - intros (x & Hx & HP) Hnil.
    by apply (filter_nil_not_elem_of P l x Hnil HP).
Qed.

Lemma dropdown_values (all_label : string) (cells : list (option string))
    (v : option string) :
  v ∈ opt_value <$> dropdown_options all_label cells ↔ v = All ∨ v ∈ cells.
Proof.
  unfold dropdown_options. rewrite fmap_cons, elem_of_cons. simpl.
  rewrite <- list_fmap_compose.
  rewrite (list_fmap_ext (opt_value ∘ (λ g, mkOption g g)) id (unique cells))
    by done.
  by rewrite list_fmap_id, elem_of_unique.
Qed.

(** X4. The dropdowns of the filter section offer "All" first and then
    the values present in their column. A value other than "All" is
    offered by a dropdown exactly when choosing it alone (the other
    dropdowns on "All") leaves at least one row; the same holds for the
    gender dropdown of the second dashboard. *)
Theorem dropdown_options_select (df : list Row) (rows : list RawRow)
    (s : string) :
  s ≠ "All"%string →
  let section := create_filter_section df in
  (Some s ∈ opt_value <$> gender_options section ↔
   filter_data (Some s) All All All df ≠ []) ∧
  (Some s ∈ opt_value <$> age_options section ↔
   filter_data All (Some s) All All df ≠ []) ∧
  (Some s ∈ opt_value <$> occupation_options section ↔
   filter_data All All (Some s) All df ≠ []) ∧
  (Some s ∈ opt_value <$> disorder_options section ↔
   filter_data All All All (Some s) df ≠ []) ∧
  (Some s ∈ opt_value <$> gender_dropdown rows ↔
   update_dashboard_filter (Some s) rows ≠ []) ∧
  opt_value <$> head (gender_options section) = Some All ∧
  opt_value <$> head (age_options section) = Some All ∧
  opt_value <$> head (occupation_options section) = Some All ∧
  opt_value <$> head (disorder_options section) = Some All.
Proof.
  intros Hs section. subst section. unfold create_filter_section.
  cbn [gender_options age_options occupation_options disorder_options].
  assert (Some s ≠ All) as Hne by (intros [= ->]; done).
  rewrite !filter_data_reference, !filter_nonempty.
  unfold gender_dropdown. rewrite !dropdown_values, !list_elem_of_fmap.
  unfold update_dashboard_filter.
  rewrite decide_False by (intros [?|?]; done).
  rewrite filter_nonempty. unfold satisfies, cell_eq.
  repeat split; try done.
  all: try (intros [?|(r & Hr & Hin)]; [done|]; exists r; split; [done|];
            repeat split; intros; try done; try congruence;
            rewrite <- Hr; reflexivity).
  - intros (r & Hin & Hg & _). right. exists r. split; [|done]. by apply Hg.
  - intros (r & Hin & _ & Ha & _). right. exists r. split; [|done].
    specialize (Ha Hne). unfold cat_eq in Ha. by destruct (age_group r).
  - intros (r & Hin & _ & _ & Ho & _). right. exists r. split; [|done].
    by apply Ho.
  - intros (r & Hin & _ & _ & _ & Hd). right. exists r. split; [|done].
    by apply Hd.
  - intros (r & Hin & Hg). right. by exists r.
Qed.

Lemma dropdown_options_select_witness :
  Some "Teacher"%string ∈
    opt_value <$> occupation_options
                    (create_filter_section (scenario nurse teacher nurse)) ↔
  filter_data All All (Some "Teacher"%string) All
              (scenario nurse teacher nurse) ≠ [].
Proof.
  refine (proj1 (proj2 (proj2
    (dropdown_options_select (scenario nurse teacher nurse) [] "Teacher" _)))).
  discriminate.
Defined.

(** ** The age filter *)

Lemma add_age_group_elem (rows : list RawRow) (r : Row) :
  r ∈ add_age_group rows ↔
  raw r ∈ rows ∧ age_group r = cut_age (age (raw r)).
Proof.
  unfold add_age_group. rewrite list_elem_of_fmap. split.
  - intros (x & -> & Hx). by split.
  - intros [Hr Hg]. exists (raw r). split; [|done].
    destruct r as [x grp]. simpl in *. by rewrite Hg.
Qed.

Lemma cut_age_label (a : Z) (lab : string) :
  cut_age a = Some lab ↔
  (lab = "Under 30"%string ∧ 0 < a <= 30) ∨
  (lab = "30-40"%string ∧ 30 < a <= 40) ∨
  (lab = "40-50"%string ∧ 40 < a <= 50) ∨
  (lab = "50-60"%string ∧ 50 < a <= 60) ∨
  (lab = "Over 60"%string ∧ 60 < a <= 100).
Proof.
  rewrite cut_age_unfold. repeat case_bool_decide; split.
  all: try (intros [= <-]; tauto).
  all: try (intros [[-> ?]|[[-> ?]|[[-> ?]|[[-> ?]|[-> ?]]]]];
            first [reflexivity | lia]).
  all: intros [=].
Qed.

(** X5. On the dataset with its derived column (which keeps the raw
    rows, in order), the age dropdown selects by age: with the other
    dropdowns on "All", the label of a bin keeps exactly the rows whose
    age lies in that bin, open on the left and closed on the right, and
    a value that is none of the five labels (and not "All") keeps no
    row. *)
Theorem age_filter_selects_bin (rows : list RawRow) (lab : string) (r : Row) :
  let df := add_age_group rows in
  raw <$> df = rows ∧
  (r ∈ filter_data All (Some "Under 30"%string) All All df ↔
   r ∈ df ∧ 0 < age (raw r) <= 30) ∧
  (r ∈ filter_data All (Some "30-40"%string) All All df ↔
   r ∈ df ∧ 30 < age (raw r) <= 40) ∧
  (r ∈ filter_data All (Some "40-50"%string) All All df ↔
   r ∈ df ∧ 40 < age (raw r) <= 50) ∧
  (r ∈ filter_data All (Some "50-60"%string) All All df ↔
   r ∈ df ∧ 50 < age (raw r) <= 60) ∧
  (r ∈ filter_data All (Some "Over 60"%string) All All df ↔
   r ∈ df ∧ 60 < age (raw r) <= 100) ∧
  (lab ≠ "All"%string → lab ∉ age_labels →
   filter_data All (Some lab) All All df = []).
Proof.
  intros df. split.
  { subst df. unfold add_age_group. rewrite <- list_fmap_compose.
    rewrite (list_fmap_ext (raw ∘ (λ x, mkRow x (cut_age (age x)))) id rows)
      by done.
    apply list_fmap_id. }
  assert (∀ l : string, l ≠ "All"%string →
            (r ∈ filter_data All (Some l) All All df ↔
             r ∈ df ∧ cut_age (age (raw r)) = Some l)) as Hsel.
  { intros l Hl. rewrite filter_data_reference, list_elem_of_filter.
    unfold satisfies. split.
    - intros [(_ & Ha & _) Hin]. split; [done|].
      apply add_age_group_elem in Hin as [_ <-].
      specialize (Ha ltac:(intros [= ->]; done)). unfold cat_eq in Ha.
      destruct (age_group r); [by symmetry|done].
    - intros [Hin Hc]. split; [|done]. repeat split; try done.
      intros _. apply add_age_group_elem in Hin as [_ ->].
      rewrite Hc. reflexivity. }
  split; [|split; [|split; [|split; [|split]]]].
  1-5: rewrite Hsel by done; rewrite cut_age_label; split;
    [ intros [Hin Hc]; split; [done|];
      destruct Hc as [[[=] ?]|[[[=] ?]|[[[=] ?]|[[[=] ?]|[[=] ?]]]]]; lia
    | intros [Hin Ha]; split; [done|]; tauto ].
  intros Hl Hnot. rewrite filter_data_reference. apply filter_none.
  intros x Hin (_ & Ha & _).
  specialize (Ha ltac:(intros [= ->]; done)).
  apply add_age_group_elem in Hin as [_ Hg]. rewrite Hg in Ha.
  unfold cat_eq in Ha. destruct (cut_age (age (raw x))) eqn:Hc; [|done].
  injection Ha as ->. apply cut_age_label in Hc. apply Hnot.
  unfold age_labels. rewrite !elem_of_cons. tauto.
Qed.

Lemma age_filter_selects_bin_witness :
  filter_data All (Some "30 - 40"%string) All All
              (add_age_group [nurse; teacher]) = [].
Proof.
  refine (proj2 (proj2 (proj2 (proj2 (proj2 (proj2
    (age_filter_selects_bin [nurse; teacher] "30 - 40"
       (mkRow nurse None))))))) _ _).
  - discriminate.
  - unfold age_labels. rewrite !elem_of_cons, elem_of_nil.
    intros [H|[H|[H|[H|[H|H]]]]]; first [discriminate H | exact H].
Defined.

(** ** Range of the statistics *)

Lemma fmul_hundred_nan (m : float) : fmul m hundred = NaN ↔ m = NaN.
Proof. destruct m; split; intros; done. Qed.

Lemma fmap_nil_iff {A B} (f : A → B) (l : list A) : f <$> l = [] ↔ l = [].
Proof. destruct l; split; intros; done. Qed.

(** X6. Each of the seven statistics is NaN exactly when the filtered
    frame has no row: on a frame with at least one row every mean and
    every percentage is a number. *)
Theorem statistics_nan_iff_empty (fdf : list Row) :
  (avg_sleep fdf = NaN ↔ fdf = []) ∧
  (avg_quality fdf = NaN ↔ fdf = []) ∧
  (avg_stress fdf = NaN ↔ fdf = []) ∧
  (avg_activity fdf = NaN ↔ fdf = []) ∧
  (sleep_disorders_pct fdf = NaN ↔ fdf = []) ∧
  (high_stress_pct fdf = NaN ↔ fdf = []) ∧
  (low_activity_pct fdf = NaN ↔ fdf = []).
Proof.
  unfold avg_sleep, avg_quality, avg_stress, avg_activity,
    sleep_disorders_pct, high_stress_pct, low_activity_pct,
    mean_int, mean_bool.
  rewrite !fmul_hundred_nan, !mean_is_nan, !fmap_nil_iff. tauto.
Qed.

Lemma Qsum_bounds (l : list Q) (lo hi : Q) :
  Forall (λ x, lo <= x <= hi)%Q l →
  (lo * inject_Z (Z.of_nat (length l)) <= Qsum l <=
   hi * inject_Z (Z.of_nat (length l)))%Q.
Proof.
  induction 1 as [|x l [Hlo Hhi] _ [IHlo IHhi]].
  - simpl. split; ring_simplify; apply Qle_refl.
  - unfold Qsum in *. simpl foldr. simpl length.
    rewrite Nat2Z.inj_succ, <- Z.add_1_l, inject_Z_plus.
    split; ring_simplify; lra.
Qed.

(** A mean taken exactly lies between any bounds of the values. *)
Lemma mean_bounds (l : list Q) (lo hi : Q) :
  l ≠ [] → Forall (λ x, lo <= x <= hi)%Q l →
  ∃ q, mean l = Num q ∧ (lo <= q <= hi)%Q.
Proof.
  intros Hne Hall. rewrite (mean_nonempty l Hne). eexists. split; [done|].
  rewrite Qred_correct.
  destruct (Qsum_bounds l lo hi Hall) as [Hlo Hhi].
  set (n := inject_Z (Z.of_nat (length l))) in *.
  assert (0 < n)%Q as Hn.
  { subst n. change 0%Q with (inject_Z 0). rewrite <- Zlt_Qlt.
    destruct l; [done|simpl; lia]. }
  split.
  - by apply Qle_shift_div_l.
  - by apply Qle_shift_div_r.
Qed.




(** A percentage of rows is a number between 0 and 100. *)
Lemma pct_value (P : Row → Prop) `{!∀ r, Decision (P r)} (fdf : list Row) :
  fdf ≠ [] →
  ∃ p, fmul (mean_bool ((λ r, bool_decide (P r)) <$> fdf)) hundred = Num p ∧
       (0 <= p <= 100)%Q.
Proof.
  intros Hne. unfold mean_bool.
  set (m := (λ b : bool, if b then 1%Q else 0%Q) <$>
              ((λ r, bool_decide (P r)) <$> fdf)).
  assert (m ≠ []) as Hm by (subst m; by rewrite !fmap_nil_iff).
  destruct (mean_bounds m 0 1 Hm) as (q & Hq & Hq0 & Hq1).
  { subst m. rewrite !Forall_fmap. apply Forall_true. intros r. simpl.
    destruct (bool_decide (P r)); lra. }
  rewrite Hq. unfold hundred, fmul. eexists. split; [done|].
  rewrite Qred_correct. lra.
Qed.

(** X8. On a frame with at least one row, each of the three percentages
    (rows with a disorder other than "None", with stress above 7, with
    activity below 50) is a number between 0 and 100. *)
Theorem percentages_within_bounds (fdf : list Row) :
  fdf ≠ [] →
  (∃ p, sleep_disorders_pct fdf = Num p ∧ (0 <= p <= 100)%Q) ∧
  (∃ p, high_stress_pct fdf = Num p ∧ (0 <= p <= 100)%Q) ∧
  (∃ p, low_activity_pct fdf = Num p ∧ (0 <= p <= 100)%Q).
Proof.
  intros Hne. repeat split.
  - apply (pct_value (λ r, sleep_disorder (raw r) ≠ "None"%string) fdf Hne).
  - apply (pct_value (λ r, 7 < stress_level (raw r)) fdf Hne).
  - apply (pct_value (λ r, physical_activity_level (raw r) < 50) fdf Hne).
Qed.

Lemma percentages_within_bounds_witness :
  ∃ p, low_activity_pct (scenario nurse teacher nurse) = Num p ∧
       (0 <= p <= 100)%Q.
Proof.
  destruct (percentages_within_bounds (scenario nurse teacher nurse))
    as (_ & _ & p & Hp & Hb); [discriminate|].
  by exists p.
Defined.

(** ** The quality ladder *)

Lemma quality_tier_Num (c : Theme) (q : Q) :
  ((q < 5)%Q →
   quality_tier c (Num q) = Insight "Poor Sleep Quality" (accent4 c) (Num q)) ∧
  ((5 <= q)%Q → (q < 7)%Q →
   quality_tier c (Num q) =
   Insight "Moderate Sleep Quality" (accent5 c) (Num q)) ∧
  ((7 <= q)%Q →
   quality_tier c (Num q) = Insight "Good Sleep Quality" (accent2 c) (Num q)).
Proof.
  unfold quality_tier, five, seven.
  destruct (flt (Num q) (Num 5)) eqn:H5; destruct (flt (Num q) (Num 7)) eqn:H7;
    try apply flt_Num in H5; try apply flt_Num in H7;
    try (apply not_true_iff_false in H5; rewrite flt_Num in H5);
    try (apply not_true_iff_false in H7; rewrite flt_Num in H7);
    repeat split; intros; first [reflexivity | exfalso; lra].
Qed.

(** X9. For every filter and dataset, when the mean sleep quality of the
    filtered rows is the number [q], the second insight is "Poor Sleep
    Quality" if [q < 5], "Moderate Sleep Quality" if [5 <= q < 7] and
    "Good Sleep Quality" if [7 <= q]; the boundaries 5 and 7 belong to
    the better tier. *)
Theorem quality_tier_boundaries
    (g a o d theme : option string) (df : list Row) (q : Q) :
  avg_quality (filter_data g a o d df) = Num q →
  let out := update_personalized_insights g a o d theme df in
  let c := theme_colors theme in
  ((q < 5)%Q →
   out !! 1%nat = Some (Insight "Poor Sleep Quality" (accent4 c) (Num q))) ∧
  ((5 <= q)%Q → (q < 7)%Q →
   out !! 1%nat = Some (Insight "Moderate Sleep Quality" (accent5 c) (Num q))) ∧
  ((7 <= q)%Q →
   out !! 1%nat = Some (Insight "Good Sleep Quality" (accent2 c) (Num q))).
Proof.
  intros Hq out c. subst out.
  unfold update_personalized_insights, insight_panel.
  rewrite classify_shape, Hq. fold c. simpl.
  destruct (quality_tier_Num c q) as (Hp & Hm & Hg).
  repeat split; intros.
  - by rewrite Hp.
  - by rewrite Hm.
  - by rewrite Hg.
Qed.

Lemma quality_tier_boundaries_witness :
  update_personalized_insights All All All All None
    (add_age_group [scenario_row nurse 41 "Female" 6 5 4 55 "None"]) !! 1%nat
  = Some (Insight "Moderate Sleep Quality" (accent5 light_theme) (Num 5)).
Proof.
  refine (proj1 (proj2
    (quality_tier_boundaries All All All All None
       (add_age_group [scenario_row nurse 41 "Female" 6 5 4 55 "None"]) 5
       eq_refl)) _ _); [discriminate|reflexivity].
Defined.

(** ** The trend callback *)

Lemma unique_nil_iff {A} `{EqDecision A} (l : list A) : unique l = [] ↔ l = [].
Proof. destruct l; split; intros; done. Qed.

(** X10. The trend callback fails with the [IndexError] of [iloc[0]]
    exactly when the filtered frame is empty; with at least one row it
    returns its two figures, the age analysis with at least one group. *)
Theorem trend_analysis_raises_iff_empty
    (g a o d theme : option string) (df : list Row) :
  (update_trend_analysis g a o d theme df = IndexError ↔
   filter_data g a o d df = []) ∧
  (filter_data g a o d df ≠ [] →
   ∃ fig2, update_trend_analysis g a o d theme df =
             Ok (age_analysis (filter_data g a o d df), fig2) ∧
           age_analysis (filter_data g a o d df) ≠ []).
Proof.
  unfold update_trend_analysis, trend_figures.
  set (fdf := filter_data g a o d df).
  assert (fdf ≠ [] →
          ∃ fig2, occupation_figure (theme_colors theme) df fdf = Ok fig2)
    as Hok.
  { intros Hne. unfold occupation_figure. cbv zeta.
    destruct (decide (1 < length _)%nat); [by eexists|].
    destruct fdf; [done|by eexists]. }
  split; [split|].
  - intros Herr. destruct (decide (fdf = [])) as [|Hne]; [done|].
    destruct (Hok Hne) as [fig2 Hfig]. by rewrite Hfig in Herr.
  - by intros ->.
  - intros Hne. destruct (Hok Hne) as [fig2 Hfig]. rewrite Hfig.
    exists fig2. split; [done|].
    unfold age_analysis, groupby_agg. rewrite fmap_nil_iff. intros Hnil.
    pose proof (isort_perm Z.leb (unique ((λ r, age (raw r)) <$> fdf))) as Hp.
    rewrite Hnil in Hp. apply Permutation_nil in Hp.
    by rewrite unique_nil_iff, fmap_nil_iff in Hp.
Qed.

Lemma trend_analysis_raises_iff_empty_witness :
  ∃ fig2,
    update_trend_analysis All All (Some "Teacher"%string) All None
      (scenario nurse teacher nurse) =
    Ok (age_analysis (filter_data All All (Some "Teacher"%string) All
                        (scenario nurse teacher nurse)), fig2).
Proof.
  destruct (proj2 (trend_analysis_raises_iff_empty All All
                     (Some "Teacher"%string) All None
                     (scenario nurse teacher nurse)))
    as (fig2 & Hfig & _); [discriminate|].
  by exists fig2.
Defined.

(** ** The age analysis *)


Lemma groupby_agg_keys {K} `{EqDecision K} (le : K → K → bool)
    (key : Row → K) (fdf : list Row) :
  group_key <$> groupby_agg le key fdf = isort le (unique (key <$> fdf)).
Proof.
  unfold groupby_agg. rewrite <- list_fmap_compose.
  rewrite (list_fmap_ext _ id (isort le (unique (key <$> fdf)))) by done.
  apply list_fmap_id.
Qed.


(** ** The factor tabs *)

Lemma replace_bmi_cases (c : string) :
  Store.replace_bmi c ≠ "Normal Weight"%string ∧
  (c = "Normal"%string → Store.replace_bmi c = "Underweight"%string) ∧
  (c = "Normal Weight"%string → Store.replace_bmi c = "Normal"%string) ∧
  (c ≠ "Normal"%string → c ≠ "Normal Weight"%string →
   Store.replace_bmi c = c) ∧
  (Store.replace_bmi c = "Normal"%string ↔ c = "Normal Weight"%string).
Proof.
  unfold Store.replace_bmi.
  destruct (decide (c = "Normal"%string)) as [->|Hn];
    [|destruct (decide (c = "Normal Weight"%string)) as [->|Hw]];
    repeat split; intros; try done; try congruence.
Qed.

(** X12. The factor callback on a store where [df] holds the dataset:
    the stress and activity tabs chart the filtered rows as they are;
    any other tab value charts the filtered rows with the BMI category
    replaced, "Normal" by "Underweight" and "Normal Weight" by "Normal"
    at once, so that no charted row is "Normal Weight", a charted row is
    "Normal" exactly when its row was "Normal Weight", and the other
    columns are untouched; in every case the frame of [df] stays as it
    was. *)
Theorem factor_tabs (df : nat) (tab g a o d theme : option string)
    (rows : list Row) (h : gmap nat (list Row)) :
  h !! df = Some rows →
  let fdf := filter_data g a o d rows in
  (∃ h', h' !! df = Some rows ∧
     Store.update_factor_content df tab g a o d theme h =
       Some (Store.OutCharts
               (if decide (tab = Some "stress"%string) then
                  [Store.mkChart "scatter" "stress_level" "sleep_duration" fdf]
                else if decide (tab = Some "activity"%string) then
                  [Store.mkChart "scatter" "daily_steps" "sleep_duration" fdf]
                else
                  [ Store.mkChart "box" "bmi_category" "sleep_duration"
                      (Store.set_bmi_category <$> fdf);
                    Store.mkChart "scatter" "bmi_category" "quality_of_sleep"
                      (Store.set_bmi_category <$> fdf) ]), h')) ∧
  Forall (λ r, bmi_category (raw r) ≠ "Normal Weight"%string)
         (Store.set_bmi_category <$> fdf) ∧
  (∀ r, let r' := Store.set_bmi_category r in
     (bmi_category (raw r') = "Normal"%string ↔
      bmi_category (raw r) = "Normal Weight"%string) ∧
     (bmi_category (raw r) = "Normal"%string →
      bmi_category (raw r') = "Underweight"%string) ∧
     (bmi_category (raw r) ≠ "Normal"%string →
      bmi_category (raw r) ≠ "Normal Weight"%string → r' = r) ∧
     age_group r' = age_group r ∧
     sleep_duration (raw r') = sleep_duration (raw r) ∧
     quality_of_sleep (raw r') = quality_of_sleep (raw r) ∧
     physical_activity_level (raw r') = physical_activity_level (raw r)).
Proof.
  intros Hdf fdf. split; [|split].
  - destruct (StoreFacts.filter_block_spec df g a o d rows h Hdf)
      as (l & h' & E & S & F & L).
    unfold Store.update_factor_content.
    rewrite (StoreFacts.bind_Some _ _ _ _ _ E).
    destruct (decide (tab = Some "stress"%string));
      [|destruct (decide (tab = Some "activity"%string))].
    + exists h'. split; [by eapply lookup_weaken|].
      by rewrite (StoreFacts.bind_Some _ _ _ _ _
                    (StoreFacts.read_Some _ _ _ L)).
    + exists h'. split; [by eapply lookup_weaken|].
      by rewrite (StoreFacts.bind_Some _ _ _ _ _
                    (StoreFacts.read_Some _ _ _ L)).
    + destruct (StoreFacts.setitem_spec Store.set_bmi_category l _ h h' S F L)
        as (h'' & E' & S' & L').
      exists h''. split; [by eapply lookup_weaken|].
      by rewrite (StoreFacts.bind_Some _ _ _ _ _ E'),
        (StoreFacts.bind_Some _ _ _ _ _ (StoreFacts.read_Some _ _ _ L')).
  - rewrite Forall_fmap. apply Forall_true. intros r.
    unfold Store.set_bmi_category. cbn [raw bmi_category compose].
    apply replace_bmi_cases.
  - intros r r'. subst r'. destruct r as [x grp].
    unfold Store.set_bmi_category.
    cbn [raw age_group bmi_category sleep_duration quality_of_sleep
         physical_activity_level].
    destruct (replace_bmi_cases (bmi_category x)) as (_ & Hn & _ & Hid & Hiff).
    repeat split; try done; try apply Hiff.
    intros H1 H2. rewrite (Hid H1 H2). by destruct x.
Qed.

Lemma factor_tabs_witness :
  ∃ h', h' !! 0%nat = Some (scenario nurse teacher nurse) ∧
    Store.update_factor_content 0%nat (Some "bmi"%string) All All All All None
      {[ 0%nat := scenario nurse teacher nurse ]} =
    Some (Store.OutCharts
            [ Store.mkChart "box" "bmi_category" "sleep_duration"
                (Store.set_bmi_category <$> scenario nurse teacher nurse);
              Store.mkChart "scatter" "bmi_category" "quality_of_sleep"
                (Store.set_bmi_category <$> scenario nurse teacher nurse) ],
          h').
Proof.
  exact (proj1 (factor_tabs 0%nat (Some "bmi"%string) All All All All None
                  (scenario nurse teacher nurse)
                  {[ 0%nat := scenario nurse teacher nurse ]}
                  (lookup_singleton_eq _ _))).
Defined.

(** ** The theme toggle *)

(** X13. The theme toggle: before the first click nothing is updated;
    after a click the colours handed to the page are those that every
    callback derives from the theme name stored by the same click; from
    "light" the stored name becomes "dark", from any other value it
    becomes "light", so two clicks from "light" or "dark" restore the
    theme. *)
Theorem toggle_theme_round_trip (current : option string) (n m : nat) :
  Store.toggle_theme None current = None ∧
  (∃ colors name button,
     Store.toggle_theme (Some n) current = Some (colors, name, button) ∧
     theme_colors (Some name) = colors ∧
     (name = "dark"%string ↔ current = Some "light"%string) ∧
     (name = "light"%string ↔ current ≠ Some "light"%string) ∧
     ∃ colors' name' button',
       Store.toggle_theme (Some m) (Some name) =
         Some (colors', name', button') ∧
       (current = Some "light"%string ∨ current = Some "dark"%string →
        Some name' = current ∧ colors' = theme_colors current)).
Proof.
  split; [done|]. unfold Store.toggle_theme.
  destruct (decide (current = Some "light"%string)) as [->|Hc].
  - eexists _, _, _. split; [done|]. split; [done|].
    split; [done|]. split; [split; intros; done|].
    eexists _, _, _. split; [done|]. by intros _.
  - eexists _, _, _. split; [done|]. split; [done|].
    split; [split; intros; done|]. split; [done|].
    eexists _, _, _. split; [done|]. intros [?| ->]; done.
Qed.

(** ** The callback of the second dashboard *)

(** X14. The callback of the second dashboard on a store where [df]
    holds the dataset returns six charts that all carry the same rows,
    those of the gender filter. With "All" or a cleared dropdown the
    filtered frame is [df] itself and the store is left exactly as it
    was; with any other value one new frame is allocated for the
    filtered rows and nothing else changes. *)
Theorem update_dashboard_charts (df : nat) (g : option string)
    (rows : list RawRow) (h : gmap nat (list RawRow)) :
  h !! df = Some rows →
  ∃ charts h',
    Store.update_dashboard df g h = Some (charts, h') ∧
    length charts = 6%nat ∧
    Forall (λ ch, Store.chart_rows ch = update_dashboard_filter g rows) charts ∧
    h' !! df = Some rows ∧
    (g = None ∨ g = All → h' = h) ∧
    (g ≠ None → g ≠ All →
     ∃ l, h !! l = None ∧ h' = <[l := update_dashboard_filter g rows]> h).
Proof.
  intros Hdf. unfold Store.update_dashboard, update_dashboard_filter.
  destruct (decide (g = None ∨ g = All)) as [Hg|Hg].
  - rewrite (StoreFacts.bind_Some (mret df) _ h df h eq_refl).
    rewrite (StoreFacts.bind_Some _ _ _ _ _ (StoreFacts.read_Some _ _ _ Hdf)).
    eexists _, h. split; [done|]. split; [done|].
    split; [by repeat constructor|]. split; [done|]. split; [done|].
    intros ??. tauto.
  - destruct (StoreFacts.alloc_fresh
                (filter (λ r, cell_eq (gender r) g) rows) h)
      as (l & Halloc & Hfresh).
    assert (Store.getitem_mask df (λ r, cell_eq (gender r) g) h =
            Some (l, <[l := filter (λ r, cell_eq (gender r) g) rows]> h))
      as Hmask.
    { unfold Store.getitem_mask.
      by rewrite (StoreFacts.bind_Some _ _ _ _ _
                    (StoreFacts.read_Some _ _ _ Hdf)). }
    rewrite (StoreFacts.bind_Some _ _ _ _ _ Hmask).
    rewrite (StoreFacts.bind_Some _ _ _ _ _
               (StoreFacts.read_Some _ _ _ (lookup_insert_eq _ _ _))).
    eexists _, _. split; [done|]. split; [done|].
    split; [by repeat constructor|]. split.
    + rewrite lookup_insert_ne; [done|]. intros ->. congruence.
    + split; [tauto|]. intros _ _. by exists l.
Qed.

Lemma update_dashboard_charts_witness :
  ∃ charts h',
    Store.update_dashboard 0%nat None {[ 0%nat := [nurse; teacher] ]} =
      Some (charts, h') ∧
    length charts = 6%nat ∧ h' !! 0%nat = Some [nurse; teacher].
Proof.
  destruct (update_dashboard_charts 0%nat None [nurse; teacher]
              {[ 0%nat := [nurse; teacher] ]} (lookup_singleton_eq _ _))
    as (charts & h' & E & Hlen & _ & Hdf & _).
  by exists charts, h'.
Defined.

(** ** More on loading *)

Lemma clip_bounds (lo hi x : Q) :
  (lo <= hi)%Q → (lo <= Loader.clip lo hi x <= hi)%Q.
Proof.
  intros Hlh. unfold Loader.clip.
  destruct (Qle_bool lo x) eqn:H1.
  - apply Qle_bool_iff in H1. destruct (Qle_bool x hi) eqn:H2.
    + apply Qle_bool_iff in H2. by split.
    + split; [done|apply Qle_refl].
  - destruct (Qle_bool lo hi) eqn:H2.
    + split; [apply Qle_refl|done].
    + apply Qle_bool_iff in Hlh. congruence.
Qed.

Lemma clip_inside (lo hi x : Q) :
  (lo <= x)%Q → (x <= hi)%Q → Loader.clip lo hi x = x.
Proof.
  intros H1 H2. unfold Loader.clip.
  apply Qle_bool_iff in H1. rewrite H1.
  apply Qle_bool_iff in H2. by rewrite H2.
Qed.

Lemma astype_int_bounds (lo hi : Z) (x : Q) :
  0 <= lo → (inject_Z lo <= x <= inject_Z hi)%Q →
  lo <= Loader.astype_int x <= hi.
Proof.
  intros Hlo [H1 H2]. unfold Loader.astype_int.
  destruct x as [n d]. unfold Qle in H1, H2. simpl in *.
  assert (0 <= n) by nia.
  rewrite Z.quot_div_nonneg by lia. split.
  - apply Z.div_le_lower_bound; lia.
  - apply Z.div_le_upper_bound; lia.
Qed.

Section loader_more.
Context {rng csv : Type}.
Variable seed : Z → rng.
Variable randint1 : Z → Z → Loader.Gen rng Z.
Variable choice1 : list string → option (list Q) → Loader.Gen rng string.
Variable normal1 : Q → Q → Loader.Gen rng Q.
Variable read_csv : csv → option (list (string * Loader.Column)).
Variable to_csv : list (string * Loader.Column) → csv.

Abbreviation synthetic_main' :=
  (Loader.synthetic_main seed randint1 choice1 normal1).
Abbreviation synthetic_test2' :=
  (Loader.synthetic_test2 seed randint1 choice1 normal1).
Abbreviation load_main' :=
  (Loader.load_main seed randint1 choice1 normal1 read_csv).
Abbreviation load_test2' :=
  (Loader.load_test2 seed randint1 choice1 normal1 read_csv to_csv).

(** The sample of the main dashboard, column by column. *)
Lemma synthetic_main_frame (s : rng) :
  ∃ age gender occupation sleep quality stress activity heart steps
    disorder bmi,
    (synthetic_main' s).1 =
      [ ("age", Loader.IntCol age);
        ("gender", Loader.StrCol gender);
        ("occupation", Loader.StrCol occupation);
        ("sleep_duration", Loader.FloatCol (Loader.clip 4 10 <$> sleep));
        ("quality_of_sleep", Loader.IntCol quality);
        ("stress_level", Loader.IntCol stress);
        ("physical_activity_level", Loader.IntCol activity);
        ("heart_rate",
         Loader.IntCol (Loader.astype_int <$> (Loader.clip 50 95 <$> heart)));
        ("daily_steps", Loader.IntCol steps);
        ("sleep_disorder", Loader.StrCol disorder);
        ("bmi_category", Loader.StrCol bmi) ]%string.
Proof.
  unfold Loader.synthetic_main, Loader.randint, Loader.choice, Loader.normal.
  repeat (rewrite LoaderFacts.gen_bind_run; cbv beta zeta).
  by eexists _, _, _, _, _, _, _, _, _, _, _.
Qed.

(** The sample of the second dashboard, column by column. *)
Lemma synthetic_test2_frame (s : rng) :
  ∃ gender age sleep quality activity stress bmi heart steps disorder,
    (synthetic_test2' s).1 =
      [ ("gender", Loader.StrCol gender);
        ("age", Loader.IntCol age);
        ("sleep_duration", Loader.FloatCol (Loader.clip 3 12 <$> sleep));
        ("quality_of_sleep",
         Loader.IntCol (Loader.clip_int 1 10 <$> quality));
        ("physical_activity_level", Loader.IntCol activity);
        ("stress_level", Loader.IntCol stress);
        ("bmi_category", Loader.StrCol bmi);
        ("heart_rate", Loader.IntCol heart);
        ("daily_steps", Loader.IntCol steps);
        ("sleep_disorder", Loader.StrCol disorder) ]%string.
Proof.
  unfold Loader.synthetic_test2, Loader.randint, Loader.choice, Loader.normal.
  repeat (rewrite LoaderFacts.gen_bind_run; cbv beta zeta).
  by eexists _, _, _, _, _, _, _, _, _, _.
Qed.

(** X15. When the CSV file is there, neither dashboard generates
    anything: the frame is the one parsed from the file, the files and
    the state of the random generator stay as they were, and a file
    that does not parse fails the start. The main dashboard reads the
    file in the working directory if it exists, whatever is under
    [data/], and the file under [data/] only if the first is absent;
    the second dashboard only looks in the working directory. *)
Theorem load_existing_file (w : Loader.World rng csv) (file : csv) :
  let parsed :=
    match read_csv file with
    | Some df => Loader.LoadOk df w
    | None => Loader.ParseFailure
    end in
  (Loader.fs w !! Loader.primary_path = Some file → load_main' w = parsed) ∧
  (Loader.fs w !! Loader.primary_path = None →
   Loader.fs w !! Loader.fallback_path = Some file → load_main' w = parsed) ∧
  (Loader.fs w !! Loader.primary_path = Some file → load_test2' w = parsed) ∧
  (Loader.fs w !! Loader.primary_path = None →
   ∃ df w', load_test2' w = Loader.LoadOk df w' ∧
            Loader.fs w' !! Loader.fallback_path =
              Loader.fs w !! Loader.fallback_path ∧
            Loader.fs w' !! Loader.primary_path = Some (to_csv df)).
Proof.
  intros parsed. subst parsed. repeat split.
  - intros Hp. unfold Loader.load_main. cbv zeta.
    rewrite decide_False by (rewrite Hp; done). by rewrite Hp.
  - intros Hp Hf. unfold Loader.load_main. cbv zeta.
    rewrite decide_True by done. by rewrite Hf.
  - intros Hp. by apply LoaderFacts.load_test2_present.
  - intros Hp. eexists _, _. split.
    + by apply LoaderFacts.load_test2_absent.
    + cbn [Loader.fs]. split.
      * by rewrite lookup_insert_ne.
      * apply lookup_insert_eq.
Qed.

(** X16. Whatever the random generator draws, the clipping keeps the
    generated values in range: in the sample of the main dashboard
    every sleep duration is between 4 and 10 and every heart rate is an
    integer between 50 and 95; in the sample of the second dashboard,
    also after the correlation effects, every sleep duration is between
    3 and 12 and every sleep quality between 1 and 10. The sample of the
    second dashboard has no occupation column to look up. *)
Theorem synthetic_value_ranges (s : rng) :
  (∃ sleep heart,
     frame_getitem (synthetic_main' s).1 "sleep_duration" =
       Some (Loader.FloatCol sleep) ∧
     Forall (λ x, 4 <= x <= 10)%Q sleep ∧
     frame_getitem (synthetic_main' s).1 "heart_rate" =
       Some (Loader.IntCol heart) ∧
     Forall (λ x, 50 <= x <= 95) heart) ∧
  (∃ sleep quality,
     frame_getitem (synthetic_test2' s).1 "sleep_duration" =
       Some (Loader.FloatCol sleep) ∧
     Forall (λ x, 3 <= x <= 12)%Q sleep ∧
     frame_getitem (synthetic_test2' s).1 "quality_of_sleep" =
       Some (Loader.IntCol quality) ∧
     Forall (λ x, 1 <= x <= 10) quality) ∧
  frame_getitem (synthetic_test2' s).1 "occupation" = None ∧
  is_Some (frame_getitem (synthetic_main' s).1 "occupation").
Proof.
  destruct (synthetic_main_frame s)
    as (age & gender & occ & sleep & quality & stress & activity & heart &
        steps & disorder & bmi & ->).
  destruct (synthetic_test2_frame s)
    as (gender2 & age2 & sleep2 & quality2 & activity2 & stress2 & bmi2 &
        heart2 & steps2 & disorder2 & ->).
  repeat split.
  - eexists _, _. split; [reflexivity|]. split; [|split; [reflexivity|]].
    + rewrite Forall_fmap. apply Forall_true. intros x.
      by apply clip_bounds.
    + rewrite !Forall_fmap. apply Forall_true. intros x. simpl.
      apply astype_int_bounds; [done|]. by apply (clip_bounds 50 95).
  - eexists _, _. split; [reflexivity|]. split; [|split; [reflexivity|]].
    + rewrite Forall_fmap. apply Forall_true. intros x.
      by apply clip_bounds.
    + rewrite Forall_fmap. apply Forall_true. intros x. simpl.
      unfold Loader.clip_int. lia.
  - by eexists.
Qed.

(** X17. The two dashboards share the CSV path. After the second
    dashboard has started without the file, the main dashboard started
    on the resulting files generates nothing and parses the file the
    second one wrote; when parsing returns the frame that was written,
    the main dashboard holds the 500-row sample of the second one, in
    which [occupation] is a missing key. The other way round, a start of
    the main dashboard without any file leaves the second dashboard to
    generate and write its own sample. *)
Theorem shared_csv_path (w : Loader.World rng csv) :
  Loader.fs w !! Loader.primary_path = None →
  (∃ df2 w2,
     load_test2' w = Loader.LoadOk df2 w2 ∧
     load_main' w2 =
       match read_csv (to_csv df2) with
       | Some df => Loader.LoadOk df w2
       | None => Loader.ParseFailure
       end ∧
     frame_getitem df2 "occupation" = None ∧
     Forall (λ c, Loader.col_length c.2 = 500%nat) df2) ∧
  (Loader.fs w !! Loader.fallback_path = None →
   ∃ df1 w1 df2 w2,
     load_main' w = Loader.LoadOk df1 w1 ∧
     load_test2' w1 = Loader.LoadOk df2 w2 ∧
     Loader.fs w2 !! Loader.primary_path = Some (to_csv df2) ∧
     Forall (λ c, Loader.col_length c.2 = 500%nat) df2).
Proof.
  intros Hp. split.
  - eexists _, _. split; [by apply LoaderFacts.load_test2_absent|].
    split; [|split].
    + unfold Loader.load_main. cbv zeta. cbn [Loader.fs].
      rewrite decide_False by (by rewrite lookup_insert_eq).
      by rewrite lookup_insert_eq.
    + destruct (synthetic_test2_frame (seed 42))
        as (? & ? & ? & ? & ? & ? & ? & ? & ? & ? & ->). reflexivity.
    + apply LoaderFacts.synthetic_test2_shape.
  - intros Hf. eexists _, _, _, _.
    split; [by apply LoaderFacts.load_main_absent|].
    split; [by apply LoaderFacts.load_test2_absent|].
    split; [cbn [Loader.fs]; apply lookup_insert_eq|].
    apply LoaderFacts.synthetic_test2_shape.
Qed.

End loader_more.

Lemma shared_csv_path_witness :
  let w0 := Loader.mkWorld (∅ : gmap string (list (string * Loader.Column)))
                           7%nat in
  ∃ df2 w2,
    Loader.counter_load_test2 w0 = Loader.LoadOk df2 w2 ∧
    Loader.counter_load_main w2 = Loader.LoadOk df2 w2 ∧
    frame_getitem df2 "occupation" = None.
Proof.
  intros w0.
  destruct (shared_csv_path Loader.counter_seed Loader.counter_randint1
              Loader.counter_choice1 Loader.counter_normal1 Some id w0
              (lookup_empty _)) as ((df2 & w2 & H1 & H2 & H3 & _) & _).
  exists df2, w2. split; [exact H1|]. split; [exact H2|exact H3].
Defined.

(** ** Layout of the occupation figure *)

(** X18. Whenever the occupation figure is produced it has two bar
    traces, "Sleep Quality" then "Stress Level", over the same labels,
    with one value per label; the labels are tilted by 45 degrees
    exactly when the filtered rows have more than three distinct
    occupations, and with more than one occupation the labels are the
    distinct occupations, each once. *)
Theorem occupation_figure_layout (c : Theme) (df fdf : list Row)
    (fig : Figure) :
  occupation_figure c df fdf = Ok fig →
  let occs := unique ((λ r, occupation (raw r)) <$> fdf) in
  (tickangle fig = Some 45 ↔ (3 < length occs)%nat) ∧
  (tickangle fig = None ↔ (length occs <= 3)%nat) ∧
  ∃ quality stress,
    traces fig = [quality; stress] ∧
    bar_name quality = "Sleep Quality"%string ∧
    bar_name stress = "Stress Level"%string ∧
    bar_x quality = bar_x stress ∧
    length (bar_y quality) = length (bar_x quality) ∧
    length (bar_y stress) = length (bar_x stress) ∧
    ((1 < length occs)%nat → bar_x quality ≡ₚ occs ∧ NoDup (bar_x quality)).
Proof.
  intros Hfig occs. unfold occupation_figure in Hfig. cbv zeta in Hfig.
  fold occs in Hfig.
  assert (∀ angle : option Z,
            angle = (if decide (3 < length occs)%nat then Some 45 else None) →
            (angle = Some 45 ↔ (3 < length occs)%nat) ∧
            (angle = None ↔ (length occs <= 3)%nat)) as Hangle.
  { intros angle ->. destruct (decide (3 < length occs)%nat).
    - split; split; intros; first [done | lia].
    - split; split; intros; first [done | lia]. }
  destruct (decide (1 < length occs)%nat) as [Hmany|Hfew].
  - injection Hfig as <-. cbn [tickangle traces].
    destruct (Hangle _ eq_refl) as [H45 Hnone].
    split; [exact H45|]. split; [exact Hnone|].
    eexists _, _. split; [reflexivity|]. cbn [bar_name bar_x bar_y].
    split; [done|]. split; [done|]. split; [done|].
    rewrite !length_fmap. split; [done|]. split; [done|]. intros _.
    assert (group_key <$>
              sort_values_quality_desc
                (groupby_agg String.leb (λ r, occupation (raw r)) fdf)
            ≡ₚ occs) as Hperm.
    { unfold sort_values_quality_desc. rewrite isort_perm.
      rewrite groupby_agg_keys. apply isort_perm. }
    split; [exact Hperm|]. rewrite Hperm. apply NoDup_unique.
  - destruct fdf as [|first rest]; [done|]. injection Hfig as <-.
    cbn [tickangle traces].
    destruct (Hangle _ eq_refl) as [H45 Hnone].
    split; [exact H45|]. split; [exact Hnone|].
    eexists _, _. split; [reflexivity|]. cbn [bar_name bar_x bar_y].
    repeat split; try done.
Qed.

Lemma occupation_figure_layout_witness :
  ∃ fig, occupation_figure light_theme (scenario nurse teacher nurse)
           (scenario nurse teacher nurse) = Ok fig ∧
         tickangle fig = None.
Proof.
  eexists. split; [reflexivity|].
  refine (proj2 (proj1 (proj2
    (occupation_figure_layout light_theme (scenario nurse teacher nurse)
       (scenario nurse teacher nurse) _ eq_refl))) _).
  simpl. lia.
Defined.
